(** * Tool proxy: tool cache, backend pool, search delegation, request handler

    A shallow embedding of [src/tool-cache.ts], [src/backend-pool.ts],
    [src/bedrock-client.ts] and the request handler of [src/index.ts].

    Conventions of the embedding:
    - a JavaScript [Map<string, V>] is an association list with unique keys
      in insertion order ([JSMap]): [set] on a present key replaces the value
      where it stands, on a fresh key it appends;
    - JSON documents ([input_schema], tool arguments, backend results,
      payloads handed to [JSON.stringify]) are values of [json];
    - [async] functions are computations of the monad [M]: a state
      (the two module-level singletons and the trace of calls made to the
      outside world) threaded through, and an outcome that is either a value
      or a thrown [Error] carrying its message;
    - the outside world (config file, backend servers, the Bedrock endpoint)
      is a record [World] of answers; [console.error] output is not modelled;
    - numbers are integers ([Z]); strings are sequences of code units. *)

From Stdlib Require Import List String Ascii ZArith Lia Bool.
Import ListNotations.
Open Scope string_scope.

Set Warnings "-register-all".

(** ** JSON values *)

Inductive json : Type :=
| JNull
| JBool (b : bool)
| JNum (z : Z)
| JStr (s : string)
| JArr (items : list json)
| JObj (fields : list (string * json)).

(** Property read on a JSON object, [None] for [undefined]. *)
Fixpoint field (k : string) (fields : list (string * json)) : option json :=
  match fields with
  | [] => None
  | (k', v) :: rest => if String.eqb k' k then Some v else field k rest
  end.

(** ** JavaScript [Map<string, V>] *)

Module JSMap.
Section Ops.
Context {V : Type}.

Definition t := list (string * V).

Definition empty : t := [].

Fixpoint get (k : string) (m : t) : option V :=
  match m with
  | [] => None
  | (k', v) :: rest => if String.eqb k' k then Some v else get k rest
  end.

Definition has (k : string) (m : t) : bool :=
  match get k m with Some _ => true | None => false end.

(** [Map.prototype.set]: a present key keeps its place, a new one goes last. *)
Fixpoint set (k : string) (v : V) (m : t) : t :=
  match m with
  | [] => [(k, v)]
  | (k', v') :: rest =>
      if String.eqb k' k then (k', v) :: rest else (k', v') :: set k v rest
  end.

Definition size (m : t) : nat := List.length m.
Definition keys (m : t) : list string := List.map fst m.
Definition values (m : t) : list V := List.map snd m.
Definition entries (m : t) : list (string * V) := m.
Definition clear (m : t) : t := [].
End Ops.
Arguments t : clear implicits.
End JSMap.

(** ** [types.ts] *)

Record ToolDefinition := mkToolDefinition {
  name : string;
  description : string;
  input_schema : json;
  defer_loading : option bool
}.

(** [type ToolSearchType = "tool_search_tool_regex"] *)
Inductive ToolSearchType : Set := tool_search_tool_regex.

Definition ToolSearchType_string (s : ToolSearchType) : string :=
  match s with tool_search_tool_regex => "tool_search_tool_regex" end.

Inductive Role := user | assistant.

(** The one shape of message the handler builds: text blocks. *)
Record TextBlock := mkTextBlock { tb_type : string; tb_text : string }.
Record Message := mkMessage { role : Role; m_content : list TextBlock }.

(** [ToolSearchToolResult] of [bedrock-client.ts], and the blocks of a
    response.  Fields the code tests for presence are options. *)
Record ToolReferenceEntry := mkRef {
  ref_type : string;
  ref_tool_name : option string
}.

Record ToolSearchContent := mkSearchContent {
  sc_type : string;
  tool_references : option (list ToolReferenceEntry)
}.

Record ResponseBlock := mkBlock {
  b_type : string;
  b_text : option string;
  b_content : option ToolSearchContent
}.

Record BedrockResponse := mkResponse {
  r_id : string;
  r_content : list ResponseBlock;
  r_stop_reason : string
}.

(** ** [tool-cache.ts] *)

Record CachedTool := mkCachedTool {
  serverName : string;
  originalName : string;
  prefixedName : string;
  definition : ToolDefinition
}.

Record ToolRoute := mkToolRoute { server : string; tool : string }.

Module ToolCache.

Definition t := JSMap.t CachedTool.

Definition new : t := JSMap.empty.

(** The template literal [`${serverName}__${tool.name}`]. *)
Definition prefixed (serverName toolName : string) : string :=
  serverName ++ "__" ++ toolName.

(** The object stored for one tool: the definition is the spread of the
    tool with [name] overwritten. *)
Definition entry (serverName : string) (tl : ToolDefinition) : CachedTool :=
  let prefixedName := prefixed serverName (name tl) in
  {| serverName := serverName;
     originalName := name tl;
     prefixedName := prefixedName;
     definition := {| name := prefixedName;
                      description := description tl;
                      input_schema := input_schema tl;
                      defer_loading := defer_loading tl |} |}.

Definition addFromServer (serverName : string) (tools : list ToolDefinition)
  (c : t) : t :=
  fold_left
    (fun c tl => JSMap.set (prefixed serverName (name tl)) (entry serverName tl) c)
    tools c.

Definition getAllDefinitions (c : t) : list ToolDefinition :=
  List.map definition (JSMap.values c).

Definition get (prefixedName : string) (c : t) : option CachedTool :=
  JSMap.get prefixedName c.

Definition getRoute (prefixedName : string) (c : t) : option ToolRoute :=
  match JSMap.get prefixedName c with
  | None => None
  | Some cached =>
      Some {| server := serverName cached; tool := originalName cached |}
  end.

Definition size (c : t) : nat := JSMap.size c.

Definition getToolNames (c : t) : list string := JSMap.keys c.

Definition clear (c : t) : t := JSMap.clear c.

(** The states a cache object can be in: built from [new ToolCache()] by
    its mutating methods. *)
Inductive reachable : t -> Prop :=
| reach_new : reachable new
| reach_add : forall s tools c,
    reachable c -> reachable (addFromServer s tools c)
| reach_clear : forall c, reachable c -> reachable (clear c).

(** What every entry of a cache built by the class itself satisfies. *)
Definition well_keyed (e : string * CachedTool) : Prop :=
  fst e = prefixed (serverName (snd e)) (originalName (snd e))
  /\ prefixedName (snd e) = fst e
  /\ name (definition (snd e)) = fst e.

Definition cache_ok (c : t) : Prop :=
  NoDup (getToolNames c) /\ Forall well_keyed c.

End ToolCache.

(** ** Outcomes, the outside world, and the monad of [async] code *)

Inductive exn (A : Type) : Type :=
| Ret (a : A)
| Throw (msg : string).
Arguments Ret {A} a.
Arguments Throw {A} msg.

(** [BackendServerConfig] of [backend-pool.ts]. *)
Inductive TransportType := http | stdio.

Record BackendServerConfig := mkConfig {
  command : option string;
  args : option (list string);
  env : option (list (string * string));
  cwd : option string;
  url : option string;
  type : option TransportType;
  headers : option (list (string * string))
}.

(** The transport object handed to [client.connect]. *)
Inductive Transport :=
| StreamableHTTPClientTransport
    (t_url : option string) (t_headers : option (list (string * string)))
| StdioClientTransport
    (t_command : option string) (t_args : list string)
    (t_env : option (list (string * string))) (t_cwd : option string).

(** A tool as a backend lists it. *)
Record McpTool := mkMcpTool {
  mcp_name : string;
  mcp_description : option string;
  mcp_inputSchema : option json
}.

(** A connected SDK [Client], by what its calls answer. *)
Record Client := mkClient {
  listTools : exn (list McpTool);
  client_callTool : string -> json -> exn json;
  client_close : exn unit
}.

Record BackendClient := mkBackendClient {
  client : Client;
  config : BackendServerConfig
}.

(** The request body of [invokeWithToolSearch]. *)
Inductive RequestTool :=
| SearchTool (st_type st_name : ToolSearchType)
| DeferredTool (d : ToolDefinition).

Record RequestBody := mkRequestBody {
  anthropic_version : string;
  anthropic_beta : list string;
  max_tokens : Z;
  messages : list Message;
  tools : list RequestTool
}.

(** What the outside answers.  [readConfig] stands for [readFile], the
    [${VAR}] substitution, [JSON.parse] and [Object.entries(config.backends)];
    [connect] for building the transport's connection ([new URL] included)
    and [client.connect]; [send] for [client.send], decoding and
    [JSON.parse] of the response body. *)
Record World := mkWorld {
  readConfig : string -> exn (list (string * BackendServerConfig));
  connect : Transport -> exn Client;
  send : RequestBody -> exn BedrockResponse
}.

Inductive Event :=
| EvReadConfig (configPath : string)
| EvConnect (serverName : string) (transport : Transport)
| EvListTools (serverName : string)
| EvCallTool (serverName toolName : string) (arguments : json)
| EvClose (serverName : string)
| EvInvokeModel (body : RequestBody).

(** The module-level singletons of [index.ts] ([toolCache], and the
    [clients] map of [backendPool], which holds a reference to the same
    cache), with the calls made to the outside so far. *)
Record Machine := mkMachine {
  toolCache : ToolCache.t;
  clients : JSMap.t BackendClient;
  trace : list Event
}.

Definition M (A : Type) : Type := Machine -> exn A * Machine.

Definition ret {A} (a : A) : M A := fun m => (Ret a, m).

Definition throw {A} (msg : string) : M A := fun m => (Throw msg, m).

Definition bind {A B} (c : M A) (k : A -> M B) : M B :=
  fun m =>
    match c m with
    | (Ret a, m') => k a m'
    | (Throw msg, m') => (Throw msg, m')
    end.

(** [try { c } catch (err) { h(message of err) }]: what [c] did to the
    state before throwing stays done. *)
Definition try_catch {A} (c : M A) (h : string -> M A) : M A :=
  fun m =>
    match c m with
    | (Ret a, m') => (Ret a, m')
    | (Throw msg, m') => h msg m'
    end.

Definition lift {A} (o : exn A) : M A := fun m => (o, m).

Definition emit (e : Event) : M unit :=
  fun m => (Ret tt, {| toolCache := toolCache m;
                       clients := clients m;
                       trace := trace m ++ [e] |}).

Definition gets {A} (f : Machine -> A) : M A := fun m => (Ret (f m), m).

Definition update_cache (f : ToolCache.t -> ToolCache.t) : M unit :=
  fun m => (Ret tt, {| toolCache := f (toolCache m);
                       clients := clients m;
                       trace := trace m |}).

Definition update_clients
  (f : JSMap.t BackendClient -> JSMap.t BackendClient) : M unit :=
  fun m => (Ret tt, {| toolCache := toolCache m;
                       clients := f (clients m);
                       trace := trace m |}).

Declare Scope monad_scope.
Delimit Scope monad_scope with monad.
Notation "x <- c1 ;; c2" := (bind c1 (fun x => c2))
  (at level 61, c1 at next level, right associativity) : monad_scope.
Notation "c1 ;; c2" := (bind c1 (fun _ => c2))
  (at level 61, right associativity) : monad_scope.
Open Scope monad_scope.

(** [for (const x of xs) { body(x) }] *)
Fixpoint for_of {A} (xs : list A) (body : A -> M unit) : M unit :=
  match xs with
  | [] => ret tt
  | x :: rest => body x ;; for_of rest body
  end.

(** Truthiness, as the [||] and [if] tests of the source use it. *)
Definition truthy_string (o : option string) : bool :=
  match o with
  | Some s => negb (String.eqb s "")
  | None => false
  end.

Definition truthy (j : json) : bool :=
  match j with
  | JNull => false
  | JBool b => b
  | JNum z => negb (Z.eqb z 0)
  | JStr s => negb (String.eqb s "")
  | JArr _ | JObj _ => true
  end.

(** ** [backend-pool.ts] *)

Module BackendPool.
Section Pool.
Variable w : World.

(** The branch of [connectServer] that picks the transport:
    [config.type === "http" || config.url].  Of the environment handed to a
    subprocess, [{ ...process.env, ...config.env }], the configured part is
    kept; the process's own variables belong to the outside. *)
Definition selectTransport (config : BackendServerConfig) : Transport :=
  if match type config with Some http => true | _ => false end
     || truthy_string (url config)
  then StreamableHTTPClientTransport (url config) (headers config)
  else StdioClientTransport (command config)
         (match args config with Some a => a | None => [] end)
         (env config) (cwd config).

(** [tools.map(tool => ({ name, description: ... || "", input_schema: ... || {...} }))] *)
Definition toToolDefinition (tl : McpTool) : ToolDefinition :=
  {| name := mcp_name tl;
     description :=
       (if truthy_string (mcp_description tl)
        then match mcp_description tl with Some d => d | None => "" end
        else "");
     input_schema :=
       match mcp_inputSchema tl with
       | Some s =>
           if truthy s then s
           else JObj [("type", JStr "object"); ("properties", JObj [])]
       | None => JObj [("type", JStr "object"); ("properties", JObj [])]
       end;
     defer_loading := None |}.

Definition connectServer (serverName : string) (config : BackendServerConfig)
  : M unit :=
  let transport := selectTransport config in
  emit (EvConnect serverName transport) ;;
  client <- lift (connect w transport) ;;
  emit (EvListTools serverName) ;;
  tools <- lift (listTools client) ;;
  let toolDefs := List.map toToolDefinition tools in
  update_cache (ToolCache.addFromServer serverName toolDefs) ;;
  update_clients
    (JSMap.set serverName {| client := client; config := config |}).

Definition initialize (configPath : string) : M unit :=
  emit (EvReadConfig configPath) ;;
  backends <- lift (readConfig w configPath) ;;
  for_of backends
    (fun '(serverName, serverConfig) =>
       try_catch (connectServer serverName serverConfig)
                 (fun _ => ret tt)).

Definition callTool (serverName toolName : string) (arguments : json)
  : M json :=
  backend <- gets (fun m => JSMap.get serverName (clients m)) ;;
  match backend with
  | None => throw ("Backend server not found: " ++ serverName)
  | Some backend =>
      emit (EvCallTool serverName toolName arguments) ;;
      lift (client_callTool (client backend) toolName arguments)
  end.

Definition getConnectedServers (m : Machine) : list string :=
  JSMap.keys (clients m).

Definition close : M unit :=
  cs <- gets (fun m => JSMap.entries (clients m)) ;;
  for_of cs
    (fun '(serverName, backend) =>
       try_catch (emit (EvClose serverName) ;;
                  lift (client_close (client backend)))
                 (fun _ => ret tt)) ;;
  update_clients JSMap.clear.

End Pool.
End BackendPool.

(** ** [bedrock-client.ts] *)

(** [Array.prototype.slice(start, end)] on integer arguments. *)
Definition relative_index (i : Z) (len : nat) : nat :=
  if (i <? 0)%Z then Z.to_nat (Z.max (Z.of_nat len + i) 0)
  else Z.to_nat (Z.min i (Z.of_nat len)).

Definition slice {A} (start stop : Z) (l : list A) : list A :=
  let k := relative_index start (List.length l) in
  let final := relative_index stop (List.length l) in
  firstn (final - k) (skipn k l).

Module Bedrock.
Section Client.
Variable w : World.

Definition requestBody (messages : list Message)
  (tools : list ToolDefinition) (searchType : ToolSearchType) : RequestBody :=
  let deferredTools :=
    List.map (fun t => {| name := name t;
                          description := description t;
                          input_schema := input_schema t;
                          defer_loading := Some true |}) tools in
  let allTools :=
    SearchTool searchType searchType :: List.map DeferredTool deferredTools in
  {| anthropic_version := "bedrock-2023-05-31";
     anthropic_beta := ["tool-search-tool-2025-10-19"];
     max_tokens := 4096;
     messages := messages;
     tools := allTools |}.

Definition invokeWithToolSearch (messages : list Message)
  (tools : list ToolDefinition) (searchType : ToolSearchType)
  : M BedrockResponse :=
  let body := requestBody messages tools searchType in
  emit (EvInvokeModel body) ;;
  lift (send w body).

(** The inner loop: [for (const ref of ...) if (ref.tool_name) toolRefs.push(...)]. *)
Definition push_references (toolRefs : list string)
  (refs : list ToolReferenceEntry) : list string :=
  fold_left
    (fun acc ref =>
       if truthy_string (ref_tool_name ref)
       then match ref_tool_name ref with
            | Some n => (acc ++ [n])%list
            | None => acc
            end
       else acc)
    refs toolRefs.

(** The outer loop over [response.content]. *)
Definition collect (response : BedrockResponse) : list string :=
  fold_left
    (fun toolRefs block =>
       if String.eqb (b_type block) "tool_search_tool_result"
       then match b_content block with
            | Some searchResult =>
                match tool_references searchResult with
                | Some refs => push_references toolRefs refs
                | None => toolRefs
                end
            | None => toolRefs
            end
       else toolRefs)
    (r_content response) [].

(** [maxResults: number = 5]: [None] is the omitted argument. *)
Definition extractToolReferences (response : BedrockResponse)
  (maxResults : option Z) : list string :=
  let maxResults := match maxResults with Some n => n | None => 5%Z end in
  slice 0 maxResults (collect response).

End Client.
End Bedrock.

(** ** [index.ts]: the request handler *)

(** [request.params.arguments], with the properties the two branches read. *)
Record RequestArguments := mkArgs {
  query : option string;
  max_results : option Z;
  tool_name : option string;
  arguments : option json
}.

Record Params := mkParams {
  p_name : string;
  p_arguments : option RequestArguments
}.

(** The text of the single content block of a result: a string built by the
    handler, or [JSON.stringify(v, null, 2)] of a value, kept as the value. *)
Inductive Text :=
| Lit (s : string)
| Stringify (v : json).

(** [{ content: [{ type: "text", text }], isError? }]; [None] is the
    property left out. *)
Record CallToolResult := mkResult {
  text : Text;
  isError : option bool
}.

(** Message of the [TypeError] of destructuring [undefined] (V8's wording). *)
Definition destructure_error (prop : string) : string :=
  "Cannot destructure property '" ++ prop ++ "' of 'args' as it is undefined.".

(** The double-quote character of the template literals. *)
Definition dquote : string := String (ascii_of_nat 34) EmptyString.

Module Proxy.
Section Handler.
Variable w : World.

(** [max_results || 5] *)
Definition or_number (o : option Z) (d : Z) : Z :=
  match o with
  | Some z => if Z.eqb z 0 then d else z
  | None => d
  end.

(** [toolArgs || {}] *)
Definition or_object (o : option json) : json :=
  match o with
  | Some j => if truthy j then j else JObj []
  | None => JObj []
  end.

(** [cached?.definition.description?.substring(0, 200) || ""], counted in
    the units of the model's strings, which are the code units of the source
    for a text of ASCII characters. *)
Definition brief (cached : option CachedTool) : string :=
  match cached with
  | Some c => substring 0 200 (description (definition c))
  | None => ""
  end.

Definition search_tools (args : option RequestArguments) : M CallToolResult :=
  try_catch
    (match args with
     | None => throw (destructure_error "query")
     | Some a =>
         if negb (truthy_string (query a))
         then ret {| text := Lit "Error: query parameter is required";
                     isError := Some true |}
         else
           let query := match query a with Some q => q | None => "" end in
           allTools <- gets (fun m => ToolCache.getAllDefinitions (toolCache m)) ;;
           if Nat.eqb (List.length allTools) 0
           then ret {| text := Stringify (JObj
                         [("error", JStr "No tools available. Backend servers may not be connected.");
                          ("tool_references", JArr [])]);
                       isError := None |}
           else
             let maxResults := or_number (max_results a) 5 in
             let searchType := tool_search_tool_regex in
             response <- Bedrock.invokeWithToolSearch w
               [{| role := user;
                   m_content := [{| tb_type := "text"; tb_text := query |}] |}]
               allTools searchType ;;
             let toolRefs :=
               Bedrock.extractToolReferences response (Some maxResults) in
             results <- gets (fun m =>
               List.map (fun ref =>
                 JObj [("name", JStr ref);
                       ("description",
                        JStr (brief (ToolCache.get ref (toolCache m))))])
                 toolRefs) ;;
             ret {| text := Stringify (JObj
                      [("tool_references", JArr (List.map JStr toolRefs));
                       ("tools", JArr results);
                       ("query", JStr query);
                       ("total_tools_available",
                        JNum (Z.of_nat (List.length allTools)))]);
                    isError := None |}
     end)
    (fun msg => ret {| text := Lit ("Error searching tools: " ++ msg);
                       isError := Some true |}).

Definition call_tool (args : option RequestArguments) : M CallToolResult :=
  try_catch
    (match args with
     | None => throw (destructure_error "tool_name")
     | Some a =>
         if negb (truthy_string (tool_name a))
         then ret {| text := Lit "Error: tool_name parameter is required";
                     isError := Some true |}
         else
           let tool_name := match tool_name a with Some n => n | None => "" end in
           route <- gets (fun m => ToolCache.getRoute tool_name (toolCache m)) ;;
           match route with
           | None =>
               ret {| text := Lit ("Error: Unknown tool " ++ dquote ++ tool_name
                                   ++ dquote ++ ". Use search_tools to find available tools.");
                      isError := Some true |}
           | Some route =>
               result <- BackendPool.callTool (server route) (tool route)
                           (or_object (arguments a)) ;;
               ret {| text := Stringify result; isError := None |}
           end
     end)
    (fun msg => ret {| text := Lit ("Error calling tool: " ++ msg);
                       isError := Some true |}).

(** The [CallToolRequestSchema] handler. *)
Definition handler (params : Params) : M CallToolResult :=
  if String.eqb (p_name params) "search_tools"
  then search_tools (p_arguments params)
  else if String.eqb (p_name params) "call_tool"
  then call_tool (p_arguments params)
  else ret {| text := Lit ("Unknown tool: " ++ p_name params);
              isError := Some true |}.

(** The part of [runServer] before the server starts listening. *)
Definition runServer (configPath : string) : M unit :=
  try_catch (BackendPool.initialize w configPath) (fun _ => ret tt).

(** The [SIGINT]/[SIGTERM] handlers, up to [process.exit]. *)
Definition shutdown : M unit := BackendPool.close.

End Handler.
End Proxy.

(** The state at module load: [new ToolCache()], [new BackendPool(toolCache)]. *)
Definition initial : Machine :=
  {| toolCache := ToolCache.new; clients := JSMap.empty; trace := [] |}.

(** ** Vocabulary of the statements *)

(** The tool names of a response's search-result blocks, in the order the
    service gave them: what [Bedrock.collect] is meant to accumulate. *)
Definition reference_names (refs : list ToolReferenceEntry) : list string :=
  flat_map (fun ref => match ref_tool_name ref with
                       | Some n => if String.eqb n "" then [] else [n]
                       | None => []
                       end) refs.

Definition references_in_order (response : BedrockResponse) : list string :=
  flat_map (fun block =>
              if String.eqb (b_type block) "tool_search_tool_result"
              then match b_content block with
                   | Some sc => match tool_references sc with
                                | Some refs => reference_names refs
                                | None => []
                                end
                   | None => []
                   end
              else [])
           (r_content response).

(** The limit a caller asks for: [max_results], or 5 when it is left out. *)
Definition requested_limit (max_results : option Z) : nat :=
  match max_results with
  | Some z => Z.to_nat z
  | None => 5
  end.

(** The [defer_loading] flag of an entry of a request's tool list. *)
Definition deferred_flag (rt : RequestTool) : option bool :=
  match rt with
  | SearchTool _ _ => None
  | DeferredTool d => defer_loading d
  end.

Definition is_search_descriptor (rt : RequestTool) : bool :=
  match rt with
  | SearchTool _ _ => true
  | DeferredTool _ => false
  end.

(** The requests sent to the search service, and the backend calls made,
    among the events of a trace. *)
Definition search_requests (tr : list Event) : list RequestBody :=
  flat_map (fun e => match e with EvInvokeModel b => [b] | _ => [] end) tr.

Definition backend_calls (tr : list Event) : list (string * string * json) :=
  flat_map (fun e => match e with
                     | EvCallTool s t a => [(s, t, a)]
                     | _ => []
                     end) tr.

Definition connect_attempts (tr : list Event) : list string :=
  flat_map (fun e => match e with EvConnect s _ => [s] | _ => [] end) tr.

(** What connecting to one declared backend yields when nothing throws:
    the client and the tools it lists. *)
Definition connected_tools (w : World) (config : BackendServerConfig)
  : option (Client * list McpTool) :=
  match connect w (BackendPool.selectTransport config) with
  | Ret client =>
      match listTools client with
      | Ret tools => Some (client, tools)
      | Throw _ => None
      end
  | Throw _ => None
  end.

(** The tools of the backends that connect, each with its backend, in
    declaration order. *)
Definition registrations (w : World)
  (backends : list (string * BackendServerConfig))
  : list (string * ToolDefinition) :=
  flat_map (fun '(serverName, config) =>
              match connected_tools w config with
              | Some (_, tools) =>
                  List.map (fun tl => (serverName, BackendPool.toToolDefinition tl))
                           tools
              | None => []
              end)
           backends.

(** Registering a list of (backend, tool) pairs one by one, as the loop of
    [addFromServer] does for the tools of one backend. *)
Definition register_each (regs : list (string * ToolDefinition))
  (c : ToolCache.t) : ToolCache.t :=
  fold_left
    (fun c '(serverName, tl) =>
       JSMap.set (ToolCache.prefixed serverName (name tl))
                 (ToolCache.entry serverName tl) c)
    regs c.


(** The text a result carries when it is a string the handler built. *)
Definition contains (needle : string) (t : Text) : Prop :=
  exists before after, t = Lit (before ++ needle ++ after).

(** The reply of a discovery that reaches the search service and gets a
    response back. *)
Definition discovery_payload (m : Machine) (q : string)
  (toolRefs : list string) : json :=
  JObj [("tool_references", JArr (List.map JStr toolRefs));
        ("tools",
         JArr (List.map
                 (fun ref =>
                    JObj [("name", JStr ref);
                          ("description",
                           JStr (Proxy.brief (ToolCache.get ref (toolCache m))))])
                 toolRefs));
        ("query", JStr q);
        ("total_tools_available",
         JNum (Z.of_nat (List.length (ToolCache.getAllDefinitions (toolCache m)))))].

Definition discovery_request (m : Machine) (q : string) : RequestBody :=
  Bedrock.requestBody
    [{| role := user; m_content := [{| tb_type := "text"; tb_text := q |}] |}]
    (ToolCache.getAllDefinitions (toolCache m)) tool_search_tool_regex.

(** ** A sample deployment

    Three declared backends: [a] (a subprocess with tools [x] and [y]), [down]
    (a subprocess that cannot be started) and [b] (a remote server with tool
    [x]); the search service answers every request with five references. *)

Definition sample_client (served : list McpTool) : Client :=
  {| listTools := Ret served;
     client_callTool := fun toolName arguments =>
                          Ret (JObj [("ran", JStr toolName); ("with", arguments)]);
     client_close := Ret tt |}.

Definition config_a : BackendServerConfig :=
  mkConfig (Some "serve-a") None None None None None None.
Definition config_down : BackendServerConfig :=
  mkConfig (Some "serve-down") (Some ["--fast"]) None None None None None.
Definition config_b : BackendServerConfig :=
  mkConfig None None None None (Some "https://b.example/mcp") (Some http) None.

Definition five_references : BedrockResponse :=
  {| r_id := "msg_01";
     r_content :=
       [ {| b_type := "server_tool_use"; b_text := None; b_content := None |};
         {| b_type := "tool_search_tool_result"; b_text := None;
            b_content := Some
              {| sc_type := "tool_search_tool_search_result";
                 tool_references := Some
                   [ mkRef "tool_reference" (Some "b__x");
                     mkRef "tool_reference" (Some "a__y");
                     mkRef "tool_reference" (Some "a__x");
                     mkRef "tool_reference" (Some "c__gone");
                     mkRef "tool_reference" (Some "a__z") ] |} |};
         {| b_type := "text"; b_text := Some "Found tools."; b_content := None |} ];
     r_stop_reason := "end_turn" |}.

Definition sample_world : World :=
  {| readConfig := fun _ =>
       Ret [("a", config_a); ("down", config_down); ("b", config_b)];
     connect := fun transport =>
       match transport with
       | StdioClientTransport (Some "serve-a") _ _ _ =>
           Ret (sample_client [mkMcpTool "x" (Some "does x") None;
                               mkMcpTool "y" None (Some (JObj []))])
       | StreamableHTTPClientTransport (Some "https://b.example/mcp") _ =>
           Ret (sample_client [mkMcpTool "x" (Some "another x") None])
       | _ => Throw "spawn ENOENT"
       end;
     send := fun _ => Ret five_references |}.

(** The state once [runServer] has initialised the pool. *)
Definition sample_running : Machine :=
  snd (Proxy.runServer sample_world "./proxy-config.json" initial).

(** ** [substituteEnvVars] of [backend-pool.ts]

    [text.replace(/\$\{(\w+)\}/g, (_, varName) => process.env[varName] || EMPTY)]:
    the text is scanned from the left; where a dollar sign, an opening brace,
    the longest run of word characters (one at least) and a closing brace
    stand, they are replaced and the scan goes on after them, the replacement
    itself not being scanned; elsewhere the character is kept.  The function
    [env] is the property read [process.env[varName]] as the replacement
    sees it: the string the value read is turned into, [None] when the read
    yields [undefined].  The read is that of the object [process.env], so it
    also answers for the names every object inherits ([toString],
    [constructor], ...), not only for the variables that are set. *)

(** The class [\w]: letters, digits and the underscore. *)
Definition is_word_char (c : ascii) : bool :=
  let n := nat_of_ascii c in
  (Nat.leb 48 n && Nat.leb n 57) || (Nat.leb 65 n && Nat.leb n 90)
  || (Nat.leb 97 n && Nat.leb n 122) || Nat.eqb n 95.

(** The greedy [\w*] at the head of a text: the run and what follows it. *)
Fixpoint word_run (s : string) : string * string :=
  match s with
  | EmptyString => (EmptyString, EmptyString)
  | String c rest =>
      if is_word_char c
      then let (run, after) := word_run rest in (String c run, after)
      else (EmptyString, s)
  end.

(** A match of the pattern at the head of a text: the captured name and the
    text after the match. *)
Definition placeholder_at (s : string) : option (string * string) :=
  match s with
  | String c1 (String c2 rest) =>
      if Ascii.eqb c1 "$"%char && Ascii.eqb c2 "{"%char
      then match word_run rest with
           | (String c run, String c3 after) =>
               if Ascii.eqb c3 "}"%char then Some (String c run, after)
               else None
           | _ => None
           end
      else None
  | _ => None
  end.

(** [process.env[varName] || EMPTY] *)
Definition env_or_empty (env : string -> option string) (varName : string)
  : string :=
  if truthy_string (env varName)
  then match env varName with Some v => v | None => EmptyString end
  else EmptyString.

(** The global replace, with the length of the text as the number of scan
    steps allowed, which is enough. *)
Fixpoint replace_placeholders (steps : nat) (env : string -> option string)
  (text : string) : string :=
  match steps with
  | O => text
  | S steps' =>
      match placeholder_at text with
      | Some (varName, after) =>
          env_or_empty env varName ++ replace_placeholders steps' env after
      | None =>
          match text with
          | EmptyString => EmptyString
          | String c rest => String c (replace_placeholders steps' env rest)
          end
      end
  end.

Definition substituteEnvVars (env : string -> option string) (text : string)
  : string :=
  replace_placeholders (String.length text) env text.

Fixpoint has_dollar (s : string) : bool :=
  match s with
  | EmptyString => false
  | String c rest => Ascii.eqb c "$"%char || has_dollar rest
  end.


(** ** Vocabulary of the further statements *)

(** Every cached route leads to a backend with a live connection. *)
Definition routable (m : Machine) : Prop :=
  forall id r,
    ToolCache.getRoute id (toolCache m) = Some r ->
    JSMap.has (server r) (clients m) = true.

Definition connects (w : World) (config : BackendServerConfig) : bool :=
  match connected_tools w config with Some _ => true | None => false end.

(** The connections [initialize] retains: one per declared backend that
    connects, set in declaration order. *)
Definition connections (w : World)
  (backends : list (string * BackendServerConfig))
  (cs : JSMap.t BackendClient) : JSMap.t BackendClient :=
  fold_left
    (fun cs '(serverName, config) =>
       match connected_tools w config with
       | Some (cl, _) =>
           JSMap.set serverName {| client := cl; config := config |} cs
       | None => cs
       end)
    backends cs.


(** The identifiers a registration adds to those present: the ones its
    tools compute that are not there yet, each once, in the order the tools
    first compute them. *)
Fixpoint fresh_identifiers (s : string) (tools : list ToolDefinition)
  (present : list string) : list string :=
  match tools with
  | [] => []
  | tl :: rest =>
      let k := ToolCache.prefixed s (name tl) in
      if existsb (String.eqb k) present
      then fresh_identifiers s rest present
      else k :: fresh_identifiers s rest (present ++ [k])
  end.


(** * Properties *)

(** ** Facts about [JSMap] *)

Module JSMapFacts.
Section Facts.
Context {V : Type}.
Implicit Types (m : JSMap.t V) (k : string) (v : V).

Lemma get_set_same k v m : JSMap.get k (JSMap.set k v m) = Some v.
Proof.
  induction m as [|[k' v'] m IH]; simpl.
  - now rewrite String.eqb_refl.
  - destruct (String.eqb k' k) eqn:E; simpl; rewrite E; auto.
Qed.

Lemma get_set_other k k' v m :
  k <> k' -> JSMap.get k' (JSMap.set k v m) = JSMap.get k' m.
Proof.
  intros Hne. induction m as [|[k0 v0] m IH]; simpl.
  - apply String.eqb_neq in Hne. now rewrite Hne.
  - destruct (String.eqb k0 k) eqn:E; simpl.
    + apply String.eqb_eq in E. subst k0.
      apply String.eqb_neq in Hne. now rewrite Hne.
    + now rewrite IH.
Qed.

Lemma get_In_keys k m :
  In k (JSMap.keys m) <-> JSMap.get k m <> None.
Proof.
  induction m as [|[k' v'] m IH]; simpl.
  - split; [tauto | congruence].
  - destruct (String.eqb k' k) eqn:E.
    + apply String.eqb_eq in E. split; [congruence | auto].
    + apply String.eqb_neq in E. rewrite <- IH. tauto.
Qed.

Lemma get_Some_In k v m : JSMap.get k m = Some v -> In (k, v) m.
Proof.
  induction m as [|[k' v'] m IH]; simpl; [discriminate|].
  destruct (String.eqb k' k) eqn:E.
  - apply String.eqb_eq in E. intros [= ->]. subst. now left.
  - auto.
Qed.

(** [set] either leaves the keys as they are or adds the key last. *)
Lemma keys_set k v m :
  JSMap.keys (JSMap.set k v m) =
  if JSMap.has k m then JSMap.keys m else (JSMap.keys m ++ [k])%list.
Proof.
  unfold JSMap.has. induction m as [|[k' v'] m IH]; simpl; auto.
  destruct (String.eqb k' k) eqn:E; simpl; auto.
  rewrite IH. now destruct (JSMap.get k m).
Qed.

Lemma In_keys_set k k' v m :
  In k' (JSMap.keys (JSMap.set k v m)) <-> k' = k \/ In k' (JSMap.keys m).
Proof.
  rewrite keys_set. unfold JSMap.has.
  destruct (JSMap.get k m) eqn:G.
  - split; auto. intros [->|H]; auto.
    apply get_In_keys. congruence.
  - rewrite in_app_iff. simpl. intuition.
Qed.

Lemma NoDup_keys_set k v m :
  NoDup (JSMap.keys m) -> NoDup (JSMap.keys (JSMap.set k v m)).
Proof.
  intros Hnd. rewrite keys_set. unfold JSMap.has.
  destruct (JSMap.get k m) eqn:G; auto.
  apply NoDup_app; [assumption | repeat constructor; simpl; tauto |].
  intros x Hx [<-|[]]. apply get_In_keys in Hx. congruence.
Qed.

Lemma In_set k v m e :
  In e (JSMap.set k v m) -> e = (k, v) \/ In e m.
Proof.
  induction m as [|[k' v'] m IH]; simpl.
  - intuition.
  - destruct (String.eqb k' k) eqn:E; simpl.
    + apply String.eqb_eq in E. subst. intuition.
    + intuition.
Qed.

Lemma size_keys m : JSMap.size m = List.length (JSMap.keys m).
Proof. unfold JSMap.size, JSMap.keys. now rewrite length_map. Qed.

End Facts.
End JSMapFacts.

(** ** Facts about [ToolCache] *)

Module ToolCacheFacts.
Import ToolCache.

Lemma append_inj_l (p x y : string) : p ++ x = p ++ y -> x = y.
Proof. induction p as [|a p IH]; simpl; [auto | intros [= H]; auto]. Qed.

Lemma prefixed_inj s x y : prefixed s x = prefixed s y -> x = y.
Proof.
  unfold prefixed. intros H. apply append_inj_l in H.
  now apply (append_inj_l "__") in H.
Qed.

Lemma prefixed_nonempty s x : prefixed s x <> "".
Proof. unfold prefixed. destruct s; simpl; discriminate. Qed.

Lemma addFromServer_snoc s tools tl c :
  addFromServer s (tools ++ [tl]) c =
  JSMap.set (prefixed s (name tl)) (entry s tl) (addFromServer s tools c).
Proof. unfold addFromServer. now rewrite fold_left_app. Qed.

(** Lookup after a registration: the last tool of the call that computes
    the identifier decides, otherwise the cache is as before. *)
Lemma get_addFromServer s tools c k :
  get k (addFromServer s tools c) =
  match find (fun tl => String.eqb (prefixed s (name tl)) k) (rev tools) with
  | Some tl => Some (entry s tl)
  | None => get k c
  end.
Proof.
  induction tools as [|tl tools IH] using rev_ind; [reflexivity|].
  rewrite addFromServer_snoc, rev_app_distr. simpl. unfold get in *.
  destruct (String.eqb (prefixed s (name tl)) k) eqn:E.
  - apply String.eqb_eq in E. subst k. apply JSMapFacts.get_set_same.
  - apply String.eqb_neq in E.
    rewrite JSMapFacts.get_set_other by assumption. exact IH.
Qed.

Lemma cache_ok_set s tl c :
  cache_ok c -> cache_ok (JSMap.set (prefixed s (name tl)) (entry s tl) c).
Proof.
  intros [Hnd Hall]. split.
  - now apply JSMapFacts.NoDup_keys_set.
  - apply Forall_forall. intros e He.
    apply JSMapFacts.In_set in He. destruct He as [-> | He].
    + repeat split.
    + rewrite Forall_forall in Hall. auto.
Qed.

Lemma cache_ok_addFromServer s tools c :
  cache_ok c -> cache_ok (addFromServer s tools c).
Proof.
  intros Hc. induction tools as [|tl tools IH] using rev_ind; [assumption|].
  rewrite addFromServer_snoc. now apply cache_ok_set.
Qed.

Lemma reachable_cache_ok c : reachable c -> cache_ok c.
Proof.
  induction 1.
  - split; constructor.
  - now apply cache_ok_addFromServer.
  - split; constructor.
Qed.

Lemma cache_ok_key_nonempty c k ct :
  cache_ok c -> get k c = Some ct -> k <> "".
Proof.
  intros [_ Hall] Hg. apply JSMapFacts.get_Some_In in Hg.
  rewrite Forall_forall in Hall. destruct (Hall _ Hg) as [Hk _].
  simpl in Hk. rewrite Hk. apply prefixed_nonempty.
Qed.

(** With unique keys, the entries filed under an identifier are the one
    that lookup finds, if any. *)
Lemma entries_under c k :
  cache_ok c ->
  filter (fun ct => String.eqb (prefixedName ct) k) (JSMap.values c) =
  match get k c with Some ct => [ct] | None => [] end.
Proof.
  unfold cache_ok, getToolNames, get.
  induction c as [|[k' ct] c IH]; simpl; [reflexivity|].
  intros [Hnd Hall]. inversion Hnd as [|? ? Hnotin Hnd']; subst.
  inversion Hall as [|? ? Hwk Hall']; subst.
  destruct Hwk as (_ & Hp & _). simpl in Hp. rewrite Hp.
  destruct (String.eqb k' k) eqn:E.
  - apply String.eqb_eq in E. subst k'. f_equal.
    rewrite IH by (split; assumption).
    destruct (JSMap.get k c) eqn:G; [|reflexivity].
    exfalso. apply Hnotin. apply JSMapFacts.get_In_keys.
    unfold JSMap.t in *. congruence.
  - apply IH. split; assumption.
Qed.

Lemma count_occ_keys c k :
  NoDup (getToolNames c) ->
  count_occ string_dec (getToolNames c) k =
  if JSMap.has k c then 1 else 0.
Proof.
  intros Hnd. unfold JSMap.has.
  destruct (JSMap.get k c) eqn:G.
  - apply NoDup_count_occ'; [assumption|].
    apply JSMapFacts.get_In_keys. congruence.
  - apply count_occ_not_In. intros Hin.
    apply JSMapFacts.get_In_keys in Hin. congruence.
Qed.

End ToolCacheFacts.

(** ** The tool cache: routes, overwriting, size *)

Lemma find_last_named s tools tl :
  In tl tools ->
  exists tl',
    find (fun x => String.eqb (ToolCache.prefixed s (name x))
                              (ToolCache.prefixed s (name tl))) (rev tools)
    = Some tl'
    /\ In tl' tools /\ name tl' = name tl.
Proof.
  intros Hin.
  destruct (find _ (rev tools)) as [tl'|] eqn:F.
  - exists tl'. split; [reflexivity|].
    apply find_some in F. destruct F as [Hin' E].
    apply String.eqb_eq in E. apply ToolCacheFacts.prefixed_inj in E.
    split; [now apply in_rev | assumption].
  - apply in_rev in Hin. pose proof (find_none _ _ F tl Hin) as E.
    simpl in E. rewrite String.eqb_refl in E. discriminate.
Qed.

(** C1. For every backend identifier [b], every list of tool definitions
    holding a tool of original name [t], and every cache, registering the
    list for [b] ([addFromServer]) and then resolving the identifier
    [b ++ "__" ++ t] ([getRoute]) gives exactly the route [(b, t)]. *)
Theorem register_then_resolveRoute :
  forall (b : string) (tools : list ToolDefinition) (tl : ToolDefinition)
         (c : ToolCache.t),
    In tl tools ->
    ToolCache.getRoute (b ++ "__" ++ name tl)
      (ToolCache.addFromServer b tools c)
    = Some {| server := b; tool := name tl |}.
Proof.
  intros b tools tl c Hin.
  change (b ++ "__" ++ name tl) with (ToolCache.prefixed b (name tl)).
  unfold ToolCache.getRoute.
  pose proof (ToolCacheFacts.get_addFromServer b tools c
                (ToolCache.prefixed b (name tl))) as G.
  unfold ToolCache.get in G. rewrite G.
  destruct (find_last_named b tools tl Hin) as (tl' & F & _ & Hname).
  rewrite F. simpl. now rewrite Hname.
Qed.

Lemma register_then_resolveRoute_witness :
  ToolCache.getRoute ("a" ++ "__" ++ "x")
    (ToolCache.addFromServer "a"
       [mkToolDefinition "x" "first" JNull None;
        mkToolDefinition "y" "second" JNull None]
       ToolCache.new)
  = Some {| server := "a"; tool := "x" |}.
Proof.
  apply (register_then_resolveRoute "a"
           [mkToolDefinition "x" "first" JNull None;
            mkToolDefinition "y" "second" JNull None]
           (mkToolDefinition "x" "first" JNull None) ToolCache.new).
  simpl. left. reflexivity.
Defined.

(** C2. When two registrations compute the same unique identifier, from the
    same backend or from different ones, the cache afterwards lists the
    identifier once, holds exactly one entry under it, and that entry is
    the later registration's, in place of the earlier registration's entry
    that stood there in between: its backend and original name are the
    later ones and its definition is a tool of the later call. *)
Theorem later_registration_replaces :
  forall (c : ToolCache.t) (b1 b2 : string)
         (tools1 tools2 : list ToolDefinition) (t1 t2 : ToolDefinition),
    ToolCache.reachable c ->
    In t1 tools1 -> In t2 tools2 ->
    ToolCache.prefixed b1 (name t1) = ToolCache.prefixed b2 (name t2) ->
    let k := ToolCache.prefixed b2 (name t2) in
    let c' := ToolCache.addFromServer b2 tools2
                (ToolCache.addFromServer b1 tools1 c) in
    (exists t1',
       In t1' tools1 /\ name t1' = name t1
       /\ ToolCache.get k (ToolCache.addFromServer b1 tools1 c)
          = Some (ToolCache.entry b1 t1'))
    /\ count_occ string_dec (ToolCache.getToolNames c') k = 1
    /\ exists t2',
         In t2' tools2 /\ name t2' = name t2
         /\ ToolCache.get k c' = Some (ToolCache.entry b2 t2')
         /\ filter (fun ct => String.eqb (prefixedName ct) k) (JSMap.values c')
            = [ToolCache.entry b2 t2']
         /\ ToolCache.getRoute k c' = Some {| server := b2; tool := name t2 |}.
Proof.
  intros c b1 b2 tools1 tools2 t1 t2 Hreach Hin1 Hin2 Hsame k c'.
  split.
  { destruct (find_last_named b1 tools1 t1 Hin1) as (t1' & F & Hin' & Hname).
    exists t1'. repeat split; try assumption.
    subst k. rewrite <- Hsame, ToolCacheFacts.get_addFromServer.
    now rewrite F. }
  assert (Hok : ToolCache.cache_ok c').
  { subst c'. do 2 apply ToolCacheFacts.cache_ok_addFromServer.
    now apply ToolCacheFacts.reachable_cache_ok. }
  destruct (find_last_named b2 tools2 t2 Hin2) as (t2' & F & Hin' & Hname).
  assert (G : ToolCache.get k c' = Some (ToolCache.entry b2 t2')).
  { subst c' k. rewrite ToolCacheFacts.get_addFromServer. now rewrite F. }
  split.
  - rewrite ToolCacheFacts.count_occ_keys by apply Hok.
    unfold JSMap.has. unfold ToolCache.get in G. now rewrite G.
  - exists t2'. repeat split; try assumption.
    + rewrite ToolCacheFacts.entries_under by assumption. now rewrite G.
    + unfold ToolCache.getRoute. unfold ToolCache.get in G. rewrite G.
      simpl. now rewrite Hname.
Qed.

Lemma later_registration_replaces_witness :
  let c' := ToolCache.addFromServer "a__b" [mkToolDefinition "c" "late" JNull None]
              (ToolCache.addFromServer "a" [mkToolDefinition "b__c" "early" JNull None]
                 ToolCache.new) in
  count_occ string_dec (ToolCache.getToolNames c') "a__b__c" = 1
  /\ ToolCache.get "a__b__c" c'
     = Some (ToolCache.entry "a__b" (mkToolDefinition "c" "late" JNull None)).
Proof.
  destruct (later_registration_replaces ToolCache.new "a" "a__b"
              [mkToolDefinition "b__c" "early" JNull None]
              [mkToolDefinition "c" "late" JNull None]
              (mkToolDefinition "b__c" "early" JNull None)
              (mkToolDefinition "c" "late" JNull None)
              ToolCache.reach_new
              (or_introl eq_refl) (or_introl eq_refl) eq_refl)
    as (_ & Hcount & _).
  split; [exact Hcount | reflexivity].
Defined.

(** C9. In every cache state, the list returned by [getAllDefinitions] is as
    long as [size] says. *)
Theorem allDefinitions_length_is_size :
  forall c : ToolCache.t,
    List.length (ToolCache.getAllDefinitions c) = ToolCache.size c.
Proof.
  intros c. unfold ToolCache.getAllDefinitions, ToolCache.size, JSMap.values,
    JSMap.size. now rewrite !length_map.
Qed.

(** ** The search delegation protocol *)

Module BedrockFacts.

Lemma push_references_spec refs acc :
  Bedrock.push_references acc refs = (acc ++ reference_names refs)%list.
Proof.
  unfold Bedrock.push_references, reference_names.
  revert acc. induction refs as [|r refs IH]; intros acc; simpl.
  - now rewrite app_nil_r.
  - rewrite IH. destruct (ref_tool_name r) as [n|]; simpl; [|reflexivity].
    destruct (String.eqb n ""); simpl; [reflexivity|].
    now rewrite <- app_assoc.
Qed.

Lemma collect_from acc blocks :
  fold_left
    (fun toolRefs block =>
       if String.eqb (b_type block) "tool_search_tool_result"
       then match b_content block with
            | Some searchResult =>
                match tool_references searchResult with
                | Some refs => Bedrock.push_references toolRefs refs
                | None => toolRefs
                end
            | None => toolRefs
            end
       else toolRefs)
    blocks acc
  = (acc ++ references_in_order (mkResponse "" blocks ""))%list.
Proof.
  unfold references_in_order. simpl.
  revert acc. induction blocks as [|b blocks IH]; intros acc; simpl.
  - now rewrite app_nil_r.
  - rewrite IH.
    destruct (String.eqb (b_type b) "tool_search_tool_result"); simpl;
      [|reflexivity].
    destruct (b_content b) as [sc|]; [|now rewrite app_nil_l].
    destruct (tool_references sc) as [refs|]; [|now rewrite app_nil_l].
    rewrite push_references_spec. now rewrite app_assoc.
Qed.

(** The two loops keep the order of the service. *)
Lemma collect_in_order response :
  Bedrock.collect response = references_in_order response.
Proof.
  unfold Bedrock.collect. rewrite collect_from. reflexivity.
Qed.

Lemma firstn_min_length {A} (n : nat) (l : list A) :
  firstn (Nat.min n (List.length l)) l = firstn n l.
Proof.
  destruct (Nat.le_gt_cases n (List.length l)) as [H|H].
  - now rewrite Nat.min_l.
  - rewrite Nat.min_r by lia. rewrite firstn_all.
    symmetry. apply firstn_all2. lia.
Qed.

Lemma relative_index_nonneg (z : Z) (len : nat) :
  (0 <= z)%Z -> relative_index z len = Nat.min (Z.to_nat z) len.
Proof.
  intros Hz. unfold relative_index.
  destruct (z <? 0)%Z eqn:E; [apply Z.ltb_lt in E; lia | lia].
Qed.

Lemma slice_prefix {A} (z : Z) (l : list A) :
  (0 <= z)%Z -> slice 0 z l = firstn (Z.to_nat z) l.
Proof.
  intros Hz. unfold slice.
  rewrite (relative_index_nonneg 0) by lia.
  rewrite (relative_index_nonneg z) by assumption.
  simpl. rewrite Nat.sub_0_r. apply firstn_min_length.
Qed.

Lemma extractToolReferences_prefix response (z : Z) :
  (0 <= z)%Z ->
  Bedrock.extractToolReferences response (Some z)
  = firstn (Z.to_nat z) (references_in_order response).
Proof.
  intros Hz. unfold Bedrock.extractToolReferences.
  rewrite collect_in_order. now apply slice_prefix.
Qed.

End BedrockFacts.

(** C8. For every query message and every list of cached definitions, the
    tool list of the request built for the search service is one search
    capability descriptor, carrying no deferral flag, placed first, followed
    by the cached definitions, one entry each and in the same order, with
    name, description and schema kept and the deferral flag set to [true];
    the descriptor is the only one in the list. *)
Theorem search_request_tool_list :
  forall (msgs : list Message) (defs : list ToolDefinition)
         (searchType : ToolSearchType),
    exists descriptor rest,
      tools (Bedrock.requestBody msgs defs searchType) = descriptor :: rest
      /\ descriptor = SearchTool searchType searchType
      /\ deferred_flag descriptor = None
      /\ Forall2 (fun d rt =>
            exists d', rt = DeferredTool d'
              /\ name d' = name d
              /\ description d' = description d
              /\ input_schema d' = input_schema d
              /\ defer_loading d' = Some true) defs rest
      /\ Forall (fun rt => deferred_flag rt = Some true) rest
      /\ List.length
           (filter is_search_descriptor
              (tools (Bedrock.requestBody msgs defs searchType))) = 1.
Proof.
  intros msgs defs searchType. simpl.
  eexists; eexists. split; [reflexivity|].
  split; [reflexivity|]. split; [reflexivity|].
  rewrite map_map.
  repeat split.
  - induction defs as [|d defs IH]; simpl; constructor; [|assumption].
    eexists. repeat split.
  - apply Forall_forall. intros rt Hin. apply in_map_iff in Hin.
    destruct Hin as (d & <- & _). reflexivity.
  - f_equal. induction defs as [|d defs IH]; simpl; auto.
Qed.

(** ** The request handler: discovery *)

Module ProxyFacts.

Lemma truthy_string_Some (s : string) :
  s <> "" -> truthy_string (Some s) = true.
Proof.
  intros H. simpl. apply String.eqb_neq in H. now rewrite H.
Qed.

Lemma getAllDefinitions_length (c : ToolCache.t) :
  List.length (ToolCache.getAllDefinitions c) = List.length c.
Proof.
  unfold ToolCache.getAllDefinitions, JSMap.values. now rewrite !length_map.
Qed.

Lemma search_tools_answered w m a q response :
  query a = Some q -> q <> "" ->
  ToolCache.size (toolCache m) <> 0 ->
  send w (discovery_request m q) = Ret response ->
  Proxy.search_tools w (Some a) m =
  (Ret {| text := Stringify
            (discovery_payload m q
               (Bedrock.extractToolReferences response
                  (Some (Proxy.or_number (max_results a) 5))));
          isError := None |},
   {| toolCache := toolCache m;
      clients := clients m;
      trace := trace m ++ [EvInvokeModel (discovery_request m q)] |}).
Proof.
  intros Hq Hne Hsize Hsend.
  unfold Proxy.search_tools, try_catch, bind, gets.
  rewrite Hq, (truthy_string_Some q Hne). cbn [negb]. cbv beta iota.
  assert (E : Nat.eqb (List.length (ToolCache.getAllDefinitions (toolCache m))) 0
              = false).
  { apply Nat.eqb_neq. rewrite getAllDefinitions_length. exact Hsize. }
  rewrite E.
  unfold Bedrock.invokeWithToolSearch, bind, emit, lift, ret.
  unfold discovery_request in Hsend. simpl trace. simpl toolCache.
  rewrite Hsend. reflexivity.
Qed.

End ProxyFacts.

(** For every response of the search service and every positive integer
    [max_results], a discovery with a non-empty query
    on a non-empty cache replies with exactly the first [max_results] tool
    names of the response's search-result blocks (all of them when there are
    fewer), in the order of the service; with [max_results] left out the
    limit is 5. *)
Theorem discover_returns_first_references :
  forall (w : World) (m : Machine) (a : RequestArguments) (q : string)
         (response : BedrockResponse),
    query a = Some q -> q <> "" ->
    ToolCache.size (toolCache m) <> 0 ->
    send w (discovery_request m q) = Ret response ->
    match max_results a with Some z => (1 <= z)%Z | None => True end ->
    exists payload m',
      Proxy.handler w {| p_name := "search_tools"; p_arguments := Some a |} m
      = (Ret {| text := Stringify (JObj payload); isError := None |}, m')
      /\ field "tool_references" payload
         = Some (JArr (List.map JStr
                         (firstn (requested_limit (max_results a))
                                 (references_in_order response)))).
Proof.
  intros w m a q response Hq Hne Hsize Hsend Hmax.
  unfold Proxy.handler. simpl.
  rewrite (ProxyFacts.search_tools_answered w m a q response Hq Hne Hsize Hsend).
  eexists; eexists. split; [reflexivity|]. simpl. do 2 f_equal. f_equal.
  destruct (max_results a) as [z|]; simpl.
  - destruct (Z.eqb z 0) eqn:E; [apply Z.eqb_eq in E; lia|].
    apply BedrockFacts.extractToolReferences_prefix. lia.
  - apply (BedrockFacts.extractToolReferences_prefix response 5). lia.
Qed.

Lemma discover_returns_first_references_witness :
  exists payload m',
    Proxy.handler sample_world
      {| p_name := "search_tools";
         p_arguments := Some (mkArgs (Some "x") (Some 2%Z) None None) |}
      sample_running
    = (Ret {| text := Stringify (JObj payload); isError := None |}, m')
    /\ field "tool_references" payload = Some (JArr [JStr "b__x"; JStr "a__y"]).
Proof.
  apply (discover_returns_first_references sample_world sample_running
           (mkArgs (Some "x") (Some 2%Z) None None) "x" five_references).
  - reflexivity.
  - discriminate.
  - vm_compute. discriminate.
  - reflexivity.
  - simpl. lia.
Defined.

(** C3. The claim fails on the code at [max_results = 0]: the handler
    computes the limit as [max_results || 5], which is 5 for 0, so a
    discovery asking for at most zero tools replies with the first five
    references of the response, where the first zero are none. *)
Theorem discover_max_results_zero_returns_five :
  forall (w : World) (m : Machine) (a : RequestArguments) (q : string)
         (response : BedrockResponse),
    query a = Some q -> q <> "" ->
    ToolCache.size (toolCache m) <> 0 ->
    send w (discovery_request m q) = Ret response ->
    max_results a = Some 0%Z ->
    exists payload m',
      Proxy.handler w {| p_name := "search_tools"; p_arguments := Some a |} m
      = (Ret {| text := Stringify (JObj payload); isError := None |}, m')
      /\ field "tool_references" payload
         = Some (JArr (List.map JStr
                         (firstn 5 (references_in_order response))))
      /\ firstn (requested_limit (max_results a))
                (references_in_order response) = [].
Proof.
  intros w m a q response Hq Hne Hsize Hsend Hzero.
  unfold Proxy.handler. simpl.
  rewrite (ProxyFacts.search_tools_answered w m a q response Hq Hne Hsize Hsend).
  eexists; eexists. split; [reflexivity|]. rewrite Hzero. split.
  - simpl. do 2 f_equal. f_equal.
    apply (BedrockFacts.extractToolReferences_prefix response 5). lia.
  - reflexivity.
Qed.

Lemma discover_max_results_zero_returns_five_witness :
  exists payload m',
    Proxy.handler sample_world
      {| p_name := "search_tools";
         p_arguments := Some (mkArgs (Some "x") (Some 0%Z) None None) |}
      sample_running
    = (Ret {| text := Stringify (JObj payload); isError := None |}, m')
    /\ field "tool_references" payload
       = Some (JArr [JStr "b__x"; JStr "a__y"; JStr "a__x"; JStr "c__gone";
                     JStr "a__z"])
    /\ firstn (requested_limit (Some 0%Z))
              (references_in_order five_references) = [].
Proof.
  apply (discover_max_results_zero_returns_five sample_world sample_running
           (mkArgs (Some "x") (Some 0%Z) None None) "x" five_references).
  - reflexivity.
  - discriminate.
  - vm_compute. discriminate.
  - reflexivity.
  - reflexivity.
Defined.

(** C4. A discovery with a non-empty query on an empty cache returns, as an
    ordinary result (nothing thrown, [isError] left out), a payload with an
    [error] field and [tool_references: []]; the state is as before, so the
    trace has no new event: the search service is not called. *)
Theorem discover_on_empty_cache :
  forall (w : World) (m : Machine) (a : RequestArguments) (q : string),
    query a = Some q -> q <> "" ->
    ToolCache.size (toolCache m) = 0 ->
    exists payload m',
      Proxy.handler w {| p_name := "search_tools"; p_arguments := Some a |} m
      = (Ret {| text := Stringify (JObj payload); isError := None |}, m')
      /\ (exists e, field "error" payload = Some (JStr e))
      /\ field "tool_references" payload = Some (JArr [])
      /\ m' = m
      /\ search_requests (trace m') = search_requests (trace m).
Proof.
  intros w m a q Hq Hne Hsize.
  unfold Proxy.handler. simpl.
  unfold Proxy.search_tools, try_catch, bind, gets.
  rewrite Hq, (ProxyFacts.truthy_string_Some q Hne). cbn [negb]. cbv beta iota.
  rewrite ProxyFacts.getAllDefinitions_length.
  unfold ToolCache.size, JSMap.size in Hsize. rewrite Hsize. simpl.
  unfold ret. eexists; eexists. split; [reflexivity|].
  repeat split. eexists. reflexivity.
Qed.

Lemma discover_on_empty_cache_witness :
  exists payload m',
    Proxy.handler sample_world
      {| p_name := "search_tools";
         p_arguments := Some (mkArgs (Some "read a file") None None None) |}
      initial
    = (Ret {| text := Stringify (JObj payload); isError := None |}, m')
    /\ (exists e, field "error" payload = Some (JStr e))
    /\ field "tool_references" payload = Some (JArr [])
    /\ m' = initial
    /\ search_requests (trace m') = search_requests (trace initial).
Proof.
  apply (discover_on_empty_cache sample_world initial
           (mkArgs (Some "read a file") None None None) "read a file").
  - reflexivity.
  - discriminate.
  - reflexivity.
Defined.

(** ** The request handler: invocation *)

(** C5. An invocation whose tool identifier is not in the cache returns an
    error result ([isError: true]) whose text contains the identifier as
    given; the state is as before, so no backend call is made.  For a
    non-empty identifier the text is the unknown-tool message quoting it. *)
Theorem invoke_unknown_tool :
  forall (w : World) (m : Machine) (a : RequestArguments) (id : string),
    tool_name a = Some id ->
    ToolCache.get id (toolCache m) = None ->
    exists r m',
      Proxy.handler w {| p_name := "call_tool"; p_arguments := Some a |} m
      = (Ret r, m')
      /\ isError r = Some true
      /\ contains id (text r)
      /\ (id <> "" ->
          text r = Lit ("Error: Unknown tool " ++ dquote ++ id ++ dquote
                        ++ ". Use search_tools to find available tools."))
      /\ m' = m
      /\ backend_calls (trace m') = backend_calls (trace m).
Proof.
  intros w m a id Hid Hget.
  unfold Proxy.handler. simpl.
  unfold Proxy.call_tool, try_catch, bind, gets. rewrite Hid.
  destruct (String.eqb_spec id "") as [-> | Hne].
  - simpl. unfold ret. eexists; eexists. split; [reflexivity|].
    repeat split.
    + exists "Error: tool_name parameter is required", "". reflexivity.
    + intros H. now contradiction H.
  - rewrite (ProxyFacts.truthy_string_Some id Hne). cbn [negb]. cbv beta iota.
    unfold ToolCache.getRoute. unfold ToolCache.get in Hget. rewrite Hget.
    unfold ret. eexists; eexists. split; [reflexivity|].
    repeat split.
    exists ("Error: Unknown tool " ++ dquote),
           (dquote ++ ". Use search_tools to find available tools.").
    unfold dquote. reflexivity.
Qed.

Lemma invoke_unknown_tool_witness :
  exists r m',
    Proxy.handler sample_world
      {| p_name := "call_tool";
         p_arguments := Some (mkArgs None None (Some "x") (Some (JObj []))) |}
      sample_running
    = (Ret r, m')
    /\ isError r = Some true
    /\ contains "x" (text r)
    /\ ("x" <> "" ->
        text r = Lit ("Error: Unknown tool " ++ dquote ++ "x" ++ dquote
                      ++ ". Use search_tools to find available tools."))
    /\ m' = sample_running
    /\ backend_calls (trace m') = backend_calls (trace sample_running).
Proof.
  apply (invoke_unknown_tool sample_world sample_running
           (mkArgs None None (Some "x") (Some (JObj []))) "x").
  - reflexivity.
  - reflexivity.
Defined.

(** ** The backend pool: teardown *)

Module BackendPoolFacts.

Lemma machine_eta (m : Machine) :
  {| toolCache := toolCache m; clients := clients m; trace := trace m |} = m.
Proof. now destruct m. Qed.

(** The loop of [close]: one close attempt per connection, whatever each
    answers; cache and connections are not touched. *)
Lemma close_loop (cs : list (string * BackendClient)) (m : Machine) :
  for_of cs
    (fun '(serverName, backend) =>
       try_catch (emit (EvClose serverName) ;;
                  lift (client_close (client backend)))
                 (fun _ => ret tt)) m
  = (Ret tt,
     {| toolCache := toolCache m;
        clients := clients m;
        trace := trace m ++ List.map (fun e => EvClose (fst e)) cs |}).
Proof.
  revert m. induction cs as [|[s b] cs IH]; intros m; simpl.
  - unfold ret. now rewrite app_nil_r, machine_eta.
  - unfold bind at 1. unfold try_catch, bind, emit, lift, ret.
    destruct (client_close (client b)) as [[]|msg];
      rewrite IH; simpl; now rewrite <- app_assoc.
Qed.

Lemma close_spec (m : Machine) :
  BackendPool.close m
  = (Ret tt,
     {| toolCache := toolCache m;
        clients := JSMap.empty;
        trace := trace m
                 ++ List.map (fun e => EvClose (fst e)) (clients m) |}).
Proof.
  unfold BackendPool.close, bind at 1. unfold gets.
  unfold bind. rewrite close_loop. reflexivity.
Qed.

Lemma callTool_no_connection (m : Machine) (s t : string) (a : json) :
  JSMap.get s (clients m) = None ->
  BackendPool.callTool s t a m
  = (Throw ("Backend server not found: " ++ s), m).
Proof.
  intros H. unfold BackendPool.callTool, bind, gets. now rewrite H.
Qed.

(** An invocation that resolves its route and finds no connection. *)
Lemma call_tool_no_connection (m : Machine) (a : RequestArguments)
  (id : string) (ct : CachedTool) :
  tool_name a = Some id -> id <> "" ->
  ToolCache.get id (toolCache m) = Some ct ->
  JSMap.get (serverName ct) (clients m) = None ->
  Proxy.call_tool (Some a) m
  = (Ret {| text := Lit ("Error calling tool: Backend server not found: "
                         ++ serverName ct);
            isError := Some true |}, m).
Proof.
  intros Hid Hne Hget Hnone.
  unfold Proxy.call_tool, try_catch. unfold bind at 1. unfold gets.
  rewrite Hid, (ProxyFacts.truthy_string_Some id Hne).
  cbn [negb]. cbv beta iota.
  unfold ToolCache.getRoute. unfold ToolCache.get in Hget. rewrite Hget.
  unfold bind. cbn [server tool].
  rewrite (callTool_no_connection m _ _ _ Hnone). reflexivity.
Qed.

End BackendPoolFacts.

(** C6. Once [close] has run (it always completes), [callTool] throws
    "Backend server not found" for every backend identifier, and invoking an
    identifier that was valid before yields the error result carrying that
    message: nothing is dispatched. *)
Theorem route_fails_after_close :
  forall (w : World) (m : Machine) (a : RequestArguments) (id : string)
         (r : ToolRoute),
    ToolCache.reachable (toolCache m) ->
    tool_name a = Some id ->
    ToolCache.getRoute id (toolCache m) = Some r ->
    let m' := snd (BackendPool.close m) in
    fst (BackendPool.close m) = Ret tt
    /\ (forall s t args,
          BackendPool.callTool s t args m'
          = (Throw ("Backend server not found: " ++ s), m'))
    /\ Proxy.handler w {| p_name := "call_tool"; p_arguments := Some a |} m'
       = (Ret {| text := Lit ("Error calling tool: Backend server not found: "
                              ++ server r);
                 isError := Some true |}, m').
Proof.
  intros w m a id r Hreach Hid Hroute m'. subst m'.
  rewrite BackendPoolFacts.close_spec. simpl fst. simpl snd.
  split; [reflexivity|]. split.
  - intros s t args. now apply BackendPoolFacts.callTool_no_connection.
  - unfold ToolCache.getRoute in Hroute.
    destruct (JSMap.get id (toolCache m)) as [ct|] eqn:Hget; [|discriminate].
    injection Hroute as <-.
    unfold Proxy.handler. simpl.
    apply (BackendPoolFacts.call_tool_no_connection _ a id ct);
      try assumption; try reflexivity.
    apply (ToolCacheFacts.cache_ok_key_nonempty (toolCache m) id ct);
      [now apply ToolCacheFacts.reachable_cache_ok | exact Hget].
Qed.

Lemma route_fails_after_close_witness :
  let m' := snd (BackendPool.close sample_running) in
  fst (BackendPool.close sample_running) = Ret tt
  /\ (forall s t args,
        BackendPool.callTool s t args m'
        = (Throw ("Backend server not found: " ++ s), m'))
  /\ Proxy.handler sample_world
       {| p_name := "call_tool";
          p_arguments := Some (mkArgs None None (Some "b__x") None) |} m'
     = (Ret {| text := Lit "Error calling tool: Backend server not found: b";
               isError := Some true |}, m').
Proof.
  apply (route_fails_after_close sample_world sample_running
           (mkArgs None None (Some "b__x") None) "b__x"
           {| server := "b"; tool := "x" |}).
  - apply (ToolCache.reach_add "b"
             [mkToolDefinition "x" "another x"
                (JObj [("type", JStr "object"); ("properties", JObj [])]) None]
             (ToolCache.addFromServer "a" _ ToolCache.new)).
    apply (ToolCache.reach_add "a"
             [mkToolDefinition "x" "does x"
                (JObj [("type", JStr "object"); ("properties", JObj [])]) None;
              mkToolDefinition "y" "" (JObj []) None]
             ToolCache.new).
    apply ToolCache.reach_new.
  - reflexivity.
  - reflexivity.
Defined.

(** C10. [close] leaves the tool cache as it is: an identifier registered
    before is still found by [get] and [getRoute] afterwards and [size] is
    the same, so invoking it after [close] fails in the pool, with the
    backend-not-found message and not with the unknown-tool one. *)
Theorem close_leaves_cache_unchanged :
  forall (w : World) (m : Machine) (a : RequestArguments) (id : string)
         (ct : CachedTool),
    ToolCache.reachable (toolCache m) ->
    tool_name a = Some id ->
    ToolCache.get id (toolCache m) = Some ct ->
    let m' := snd (BackendPool.close m) in
    toolCache m' = toolCache m
    /\ ToolCache.get id (toolCache m') = Some ct
    /\ ToolCache.getRoute id (toolCache m')
       = Some {| server := serverName ct; tool := originalName ct |}
    /\ ToolCache.size (toolCache m') = ToolCache.size (toolCache m)
    /\ exists r,
         Proxy.handler w {| p_name := "call_tool"; p_arguments := Some a |} m'
         = (Ret r, m')
         /\ text r = Lit ("Error calling tool: Backend server not found: "
                          ++ serverName ct)
         /\ text r <> Lit ("Error: Unknown tool " ++ dquote ++ id ++ dquote
                           ++ ". Use search_tools to find available tools.").
Proof.
  intros w m a id ct Hreach Hid Hget m'. subst m'.
  rewrite BackendPoolFacts.close_spec. simpl snd. simpl toolCache.
  split; [reflexivity|]. split; [assumption|]. split.
  - unfold ToolCache.getRoute. unfold ToolCache.get in Hget. now rewrite Hget.
  - split; [reflexivity|].
    eexists. split.
    + unfold Proxy.handler. simpl String.eqb. cbv iota.
      cbn [p_arguments].
      apply (BackendPoolFacts.call_tool_no_connection _ a id ct);
        try assumption; try reflexivity.
      apply (ToolCacheFacts.cache_ok_key_nonempty (toolCache m) id ct);
        [now apply ToolCacheFacts.reachable_cache_ok | exact Hget].
    + split; [reflexivity|]. simpl. discriminate.
Qed.

Lemma close_leaves_cache_unchanged_witness :
  let m' := snd (BackendPool.close sample_running) in
  toolCache m' = toolCache sample_running
  /\ ToolCache.getRoute "a__y" (toolCache m')
     = Some {| server := "a"; tool := "y" |}
  /\ ToolCache.size (toolCache m') = 3.
Proof.
  destruct (close_leaves_cache_unchanged sample_world sample_running
              (mkArgs None None (Some "a__y") None) "a__y"
              (ToolCache.entry "a" (mkToolDefinition "y" "" (JObj []) None)))
    as (Hcache & _ & Hroute & Hsize & _).
  - apply (ToolCache.reach_add "b"
             [mkToolDefinition "x" "another x"
                (JObj [("type", JStr "object"); ("properties", JObj [])]) None]
             (ToolCache.addFromServer "a" _ ToolCache.new)).
    apply (ToolCache.reach_add "a"
             [mkToolDefinition "x" "does x"
                (JObj [("type", JStr "object"); ("properties", JObj [])]) None;
              mkToolDefinition "y" "" (JObj []) None]
             ToolCache.new).
    apply ToolCache.reach_new.
  - reflexivity.
  - reflexivity.
  - split; [exact Hcache|]. split; [exact Hroute|]. exact Hsize.
Defined.

(** ** The backend pool: initialisation *)

Module InitializeFacts.
Section Init.
Variable w : World.

Lemma addFromServer_register_each s tools c :
  ToolCache.addFromServer s tools c
  = register_each (List.map (fun tl => (s, tl)) tools) c.
Proof.
  unfold ToolCache.addFromServer, register_each.
  revert c. induction tools as [|tl tools IH]; intros c; simpl; auto.
Qed.

Lemma register_each_app regs1 regs2 c :
  register_each (regs1 ++ regs2) c
  = register_each regs2 (register_each regs1 c).
Proof. unfold register_each. apply fold_left_app. Qed.




(** One turn of the loop of [initialize]: it never throws, it counts as one
    attempt, and it changes cache and connections only when the backend
    connects and lists its tools. *)
Lemma connect_turn s config m :
  exists m',
    try_catch (BackendPool.connectServer w s config) (fun _ => ret tt) m
    = (Ret tt, m')
    /\ toolCache m'
       = register_each (registrations w [(s, config)]) (toolCache m)
    /\ connect_attempts (trace m') = (connect_attempts (trace m) ++ [s])%list
    /\ (forall s', In s' (JSMap.keys (clients m)) ->
                   In s' (JSMap.keys (clients m')))
    /\ (connected_tools w config <> None -> In s (JSMap.keys (clients m'))).
Proof.
  unfold try_catch, BackendPool.connectServer, bind, emit, lift, ret,
    update_cache, update_clients, registrations, connected_tools.
  simpl. rewrite app_nil_r.
  destruct (connect w (BackendPool.selectTransport config)) as [cl|msg];
    [destruct (listTools cl) as [tools|msg]|];
    simpl; eexists; (split; [reflexivity|]); simpl;
    unfold connect_attempts; rewrite !flat_map_app; simpl;
    rewrite ?app_nil_r.
  - rewrite addFromServer_register_each, map_map.
    repeat split; auto.
    + intros s' Hs'. apply JSMapFacts.In_keys_set. now right.
    + intros _. apply JSMapFacts.In_keys_set. now left.
  - repeat split; auto. intros H. now contradiction H.
  - repeat split; auto. intros H. now contradiction H.
Qed.

Lemma registrations_cons s config backends :
  registrations w ((s, config) :: backends)
  = (registrations w [(s, config)] ++ registrations w backends)%list.
Proof. unfold registrations. simpl. now rewrite app_nil_r. Qed.

Lemma initialize_loop backends m :
  exists m',
    for_of backends
      (fun '(serverName, serverConfig) =>
         try_catch (BackendPool.connectServer w serverName serverConfig)
                   (fun _ => ret tt)) m
    = (Ret tt, m')
    /\ toolCache m' = register_each (registrations w backends) (toolCache m)
    /\ connect_attempts (trace m')
       = (connect_attempts (trace m) ++ List.map fst backends)%list
    /\ (forall s, In s (JSMap.keys (clients m)) ->
                  In s (JSMap.keys (clients m')))
    /\ (forall s config, In (s, config) backends ->
                         connected_tools w config <> None ->
                         In s (JSMap.keys (clients m'))).
Proof.
  revert m. induction backends as [|[s config] backends IH]; intros m.
  - exists m. simpl. rewrite app_nil_r. repeat split; auto.
    intros ? ? [].
  - destruct (connect_turn s config m) as (m1 & E1 & C1 & A1 & K1 & S1).
    destruct (IH m1) as (m' & E & C & A & K & S).
    exists m'. simpl for_of. unfold bind at 1. rewrite E1.
    split; [exact E|]. split.
    + rewrite C, C1, (registrations_cons s config backends).
      symmetry. apply register_each_app.
    + split.
      * rewrite A, A1. simpl. now rewrite <- app_assoc.
      * split; [auto|].
        intros s' config' [[= -> ->] | Hin] Hc; [auto | eauto].
Qed.

End Init.
End InitializeFacts.




(** * Further properties *)

(** ** Placeholders of the configuration text *)

Module EnvVarFacts.

Lemma word_run_split (s : string) :
  s = fst (word_run s) ++ snd (word_run s).
Proof.
  induction s as [|c s IH]; simpl; [reflexivity|].
  destruct (is_word_char c); [|reflexivity].
  destruct (word_run s) as [run after]. simpl in *. now rewrite <- IH.
Qed.

Lemma length_append (a b : string) :
  String.length (a ++ b) = String.length a + String.length b.
Proof. induction a as [|c a IH]; simpl; [reflexivity | now rewrite IH]. Qed.

Lemma placeholder_at_shorter (s varName after : string) :
  placeholder_at s = Some (varName, after) ->
  String.length after < String.length s.
Proof.
  unfold placeholder_at.
  destruct s as [|c1 [|c2 rest]]; try discriminate.
  destruct (Ascii.eqb c1 "$" && Ascii.eqb c2 "{"); [|discriminate].
  pose proof (word_run_split rest) as Hsplit.
  destruct (word_run rest) as [[|c run] [|c3 rest']]; try discriminate.
  destruct (Ascii.eqb c3 "}"); [|discriminate].
  intros [= <- <-]. simpl in Hsplit. rewrite Hsplit. simpl.
  rewrite length_append. simpl. lia.
Qed.

(** Any number of steps from the length of the text on gives the same. *)
Lemma replace_placeholders_enough env (n : nat) :
  forall (s : string) (steps1 steps2 : nat),
    String.length s <= n ->
    String.length s <= steps1 -> String.length s <= steps2 ->
    replace_placeholders steps1 env s = replace_placeholders steps2 env s.
Proof.
  induction n as [|n IH]; intros s steps1 steps2 Hn H1 H2.
  - destruct s; [|simpl in Hn; lia].
    destruct steps1, steps2; reflexivity.
  - destruct steps1 as [|steps1];
      [destruct s; [destruct steps2; reflexivity | simpl in H1; lia]|].
    destruct steps2 as [|steps2];
      [destruct s; [reflexivity | simpl in H2; lia]|].
    cbn [replace_placeholders].
    destruct (placeholder_at s) as [[varName after]|] eqn:P.
    + apply placeholder_at_shorter in P. f_equal. apply IH; lia.
    + destruct s as [|c rest]; [reflexivity|]. simpl in *. f_equal.
      apply IH; lia.
Qed.

Lemma replace_placeholders_S env (steps : nat) (s : string) :
  replace_placeholders (S steps) env s =
  match placeholder_at s with
  | Some (varName, after) =>
      env_or_empty env varName ++ replace_placeholders steps env after
  | None =>
      match s with
      | EmptyString => EmptyString
      | String c rest => String c (replace_placeholders steps env rest)
      end
  end.
Proof. reflexivity. Qed.

(** The scan, one step at a time. *)
Lemma substituteEnvVars_step env (s : string) :
  substituteEnvVars env s =
  match placeholder_at s with
  | Some (varName, after) =>
      env_or_empty env varName ++ substituteEnvVars env after
  | None =>
      match s with
      | EmptyString => EmptyString
      | String c rest => String c (substituteEnvVars env rest)
      end
  end.
Proof.
  unfold substituteEnvVars.
  destruct s as [|c rest]; [reflexivity|].
  change (String.length (String c rest)) with (S (String.length rest)).
  rewrite replace_placeholders_S.
  destruct (placeholder_at (String c rest)) as [[varName after]|] eqn:P.
  - f_equal. apply placeholder_at_shorter in P. simpl in P.
    apply (replace_placeholders_enough env (String.length rest)); lia.
  - reflexivity.
Qed.

Lemma placeholder_at_not_dollar (c : ascii) (s : string) :
  Ascii.eqb c "$" = false -> placeholder_at (String c s) = None.
Proof.
  intros H. unfold placeholder_at. destruct s; [reflexivity|].
  now rewrite H.
Qed.

Lemma substituteEnvVars_plain_prefix env (pre s : string) :
  has_dollar pre = false ->
  substituteEnvVars env (pre ++ s) = pre ++ substituteEnvVars env s.
Proof.
  induction pre as [|c pre IH]; simpl; [reflexivity|].
  intros H. apply Bool.orb_false_iff in H. destruct H as [Hc Hpre].
  rewrite substituteEnvVars_step.
  rewrite (placeholder_at_not_dollar c (pre ++ s) Hc).
  now rewrite IH.
Qed.


End EnvVarFacts.

(** A text without a dollar sign goes through [substituteEnvVars]
    unchanged. *)
Theorem substituteEnvVars_plain_text :
  forall (env : string -> option string) (text : string),
    has_dollar text = false ->
    substituteEnvVars env text = text.
Proof.
  intros env text H.
  pose proof (EnvVarFacts.substituteEnvVars_plain_prefix env text "" H) as E.
  assert (Hnil : forall s : string, s ++ "" = s)
    by (induction s as [|c s IH]; simpl; [reflexivity | now rewrite IH]).
  rewrite Hnil in E. rewrite E. now rewrite Hnil.
Qed.

Lemma substituteEnvVars_plain_text_witness :
  substituteEnvVars (fun _ => Some "secret") "{ backends: {} }"
  = "{ backends: {} }".
Proof.
  apply (substituteEnvVars_plain_text (fun _ => Some "secret")
           "{ backends: {} }").
  reflexivity.
Defined.





(** ** More on the tool cache *)

Module ToolCacheMore.
Import ToolCache.

(** Two maps with the same keys in the same order, none twice, and the same
    lookups are the same map. *)
Lemma jsmap_ext {V : Type} (m1 m2 : JSMap.t V) :
  JSMap.keys m1 = JSMap.keys m2 ->
  (forall k, JSMap.get k m1 = JSMap.get k m2) ->
  NoDup (JSMap.keys m1) ->
  m1 = m2.
Proof.
  revert m2. induction m1 as [|[k1 v1] m1 IH]; intros [|[k2 v2] m2];
    simpl; try discriminate; [reflexivity|].
  intros [= <- Hkeys] Hget Hnd. inversion Hnd as [|? ? Hnotin Hnd']; subst.
  pose proof (Hget k1) as H1. rewrite String.eqb_refl in H1.
  injection H1 as <-. f_equal. apply IH; try assumption.
  intros k. destruct (String.eqb_spec k1 k) as [<-|Hne].
  - destruct (JSMap.get k1 m1) eqn:G1.
    + exfalso. apply Hnotin. apply JSMapFacts.get_In_keys. congruence.
    + destruct (JSMap.get k1 m2) eqn:G2; [|reflexivity].
      exfalso. apply Hnotin. fold (JSMap.keys m1). rewrite Hkeys.
      apply JSMapFacts.get_In_keys. congruence.
  - pose proof (Hget k) as Hk. apply String.eqb_neq in Hne.
    now rewrite Hne in Hk.
Qed.

Lemma keys_addFromServer_present s tools c :
  (forall tl, In tl tools -> JSMap.has (prefixed s (name tl)) c = true) ->
  getToolNames (addFromServer s tools c) = getToolNames c.
Proof.
  unfold getToolNames.
  induction tools as [|tl tools IH] using rev_ind; intros H; [reflexivity|].
  rewrite ToolCacheFacts.addFromServer_snoc, JSMapFacts.keys_set.
  assert (Hprev : JSMap.keys (addFromServer s tools c) = JSMap.keys c).
  { apply IH. intros x Hx. apply H. apply in_or_app. now left. }
  assert (Hhas : JSMap.has (prefixed s (name tl)) (addFromServer s tools c)
                 = true).
  { unfold JSMap.has.
    destruct (JSMap.get (prefixed s (name tl)) (addFromServer s tools c)) eqn:G;
      [reflexivity|].
    exfalso.
    assert (Hin : In (prefixed s (name tl)) (JSMap.keys c)).
    { apply JSMapFacts.get_In_keys.
      assert (Hlast : In tl (tools ++ [tl]))
        by (apply in_or_app; right; now left).
      specialize (H tl Hlast). unfold JSMap.has in H. destruct (JSMap.get _ c); congruence. }
    rewrite <- Hprev in Hin. apply JSMapFacts.get_In_keys in Hin. congruence. }
  rewrite Hhas. exact Hprev.
Qed.

End ToolCacheMore.

(** In a cache built by the class, an identifier that resolves is the
    backend name, two underscores and the tool name of its route: [getRoute]
    undoes the prefixing, and nothing else resolves. *)
Theorem getRoute_identifier_shape :
  forall (c : ToolCache.t) (id : string) (r : ToolRoute),
    ToolCache.reachable c ->
    ToolCache.getRoute id c = Some r ->
    id = server r ++ "__" ++ tool r.
Proof.
  intros c id r Hreach Hroute.
  unfold ToolCache.getRoute in Hroute.
  destruct (JSMap.get id c) as [ct|] eqn:G; [|discriminate].
  injection Hroute as <-. simpl.
  destruct (ToolCacheFacts.reachable_cache_ok c Hreach) as [_ Hall].
  apply JSMapFacts.get_Some_In in G.
  rewrite Forall_forall in Hall. destruct (Hall _ G) as [Hk _]. exact Hk.
Qed.

Lemma getRoute_identifier_shape_witness :
  "a__b__c" = server {| server := "a__b"; tool := "c" |} ++ "__"
              ++ tool {| server := "a__b"; tool := "c" |}.
Proof.
  apply (getRoute_identifier_shape
           (ToolCache.addFromServer "a__b"
              [mkToolDefinition "c" "late" JNull None] ToolCache.new)
           "a__b__c" {| server := "a__b"; tool := "c" |}).
  - apply ToolCache.reach_add, ToolCache.reach_new.
  - reflexivity.
Defined.

(** In a cache built by the class, the definitions of [getAllDefinitions]
    are named, one for one and in order, by the identifiers of
    [getToolNames], and no identifier occurs twice. *)
Theorem definitions_named_by_identifiers :
  forall c : ToolCache.t,
    ToolCache.reachable c ->
    List.map name (ToolCache.getAllDefinitions c) = ToolCache.getToolNames c
    /\ NoDup (ToolCache.getToolNames c).
Proof.
  intros c Hreach.
  destruct (ToolCacheFacts.reachable_cache_ok c Hreach) as [Hnd Hall].
  split; [|exact Hnd].
  unfold ToolCache.getAllDefinitions, ToolCache.getToolNames, JSMap.values,
    JSMap.keys. rewrite !map_map.
  apply map_ext_in. intros e He. rewrite Forall_forall in Hall.
  now destruct (Hall e He) as (_ & _ & Hname).
Qed.

Lemma definitions_named_by_identifiers_witness :
  List.map name (ToolCache.getAllDefinitions (toolCache sample_running))
  = ["a__x"; "a__y"; "b__x"].
Proof.
  destruct (definitions_named_by_identifiers (toolCache sample_running))
    as [Hnames _].
  - apply (ToolCache.reach_add "b"
             [mkToolDefinition "x" "another x"
                (JObj [("type", JStr "object"); ("properties", JObj [])]) None]
             (ToolCache.addFromServer "a" _ ToolCache.new)).
    apply (ToolCache.reach_add "a"
             [mkToolDefinition "x" "does x"
                (JObj [("type", JStr "object"); ("properties", JObj [])]) None;
              mkToolDefinition "y" "" (JObj []) None]
             ToolCache.new).
    apply ToolCache.reach_new.
  - rewrite Hnames. reflexivity.
Defined.

(** A registration touches only the identifiers it computes: any other
    identifier is looked up, and routed, as before. *)
Theorem addFromServer_leaves_other_identifiers :
  forall (s : string) (tools : list ToolDefinition) (c : ToolCache.t)
         (id : string),
    (forall tl, In tl tools -> s ++ "__" ++ name tl <> id) ->
    ToolCache.get id (ToolCache.addFromServer s tools c) = ToolCache.get id c
    /\ ToolCache.getRoute id (ToolCache.addFromServer s tools c)
       = ToolCache.getRoute id c.
Proof.
  intros s tools c id Hother.
  assert (G : ToolCache.get id (ToolCache.addFromServer s tools c)
              = ToolCache.get id c).
  { rewrite ToolCacheFacts.get_addFromServer.
    destruct (find _ (rev tools)) as [tl|] eqn:F; [|reflexivity].
    apply find_some in F. destruct F as [Hin E].
    apply String.eqb_eq in E. apply in_rev in Hin.
    now contradiction (Hother tl Hin). }
  split; [exact G|].
  unfold ToolCache.getRoute. unfold ToolCache.get in G. now rewrite G.
Qed.

Lemma addFromServer_leaves_other_identifiers_witness :
  ToolCache.getRoute "a__x"
    (ToolCache.addFromServer "b" [mkToolDefinition "x" "" JNull None]
       (toolCache sample_running))
  = Some {| server := "a"; tool := "x" |}.
Proof.
  destruct (addFromServer_leaves_other_identifiers "b"
              [mkToolDefinition "x" "" JNull None]
              (toolCache sample_running) "a__x") as [_ Hroute].
  - intros tl [<-|[]]. discriminate.
  - rewrite Hroute. reflexivity.
Defined.

Lemma has_existsb {V : Type} (k : string) (m : JSMap.t V) :
  JSMap.has k m = existsb (String.eqb k) (JSMap.keys m).
Proof.
  unfold JSMap.has. induction m as [|[k' v] m IH]; simpl; [reflexivity|].
  rewrite (String.eqb_sym k k'). now destruct (String.eqb k' k).
Qed.

Lemma fresh_identifiers_In s tools :
  forall present k,
    In k (fresh_identifiers s tools present) <->
    (exists tl, In tl tools /\ ToolCache.prefixed s (name tl) = k)
    /\ ~ In k present.
Proof.
  induction tools as [|tl tools IH]; intros present k; simpl.
  - split; [contradiction | intros [(tl & [] & _) _]].
  - destruct (existsb (String.eqb (ToolCache.prefixed s (name tl))) present)
      eqn:E.
    + apply existsb_exists in E. destruct E as (k' & Hk' & E).
      apply String.eqb_eq in E. subst k'.
      rewrite IH. split.
      * intros [(tl' & Hin & Hk) Hnot]. split; [|assumption].
        exists tl'. auto.
      * intros [(tl' & [<-|Hin] & Hk) Hnot].
        -- subst k. contradiction.
        -- split; [|assumption]. exists tl'. auto.
    + assert (Hnew : ~ In (ToolCache.prefixed s (name tl)) present).
      { intros Hin.
        assert (X : existsb (String.eqb (ToolCache.prefixed s (name tl)))
                      present = true).
        { apply existsb_exists. exists (ToolCache.prefixed s (name tl)).
          split; [assumption | apply String.eqb_refl]. }
        congruence. }
      simpl. rewrite IH. split.
      * intros [<-|[(tl' & Hin & Hk) Hnot]].
        -- split; [|assumption]. exists tl. auto.
        -- split.
           ++ exists tl'. auto.
           ++ intros Hp. apply Hnot. apply in_or_app. now left.
      * intros [(tl' & [<-|Hin] & Hk) Hnot]; [now left|].
        destruct (string_dec (ToolCache.prefixed s (name tl)) k) as [|Hne];
          [now left|].
        right. split; [exists tl'; auto|].
        intros Hp. apply in_app_or in Hp. destruct Hp as [Hp|[Hp|[]]];
          contradiction.
Qed.

Lemma fresh_identifiers_NoDup s tools :
  forall present, NoDup (fresh_identifiers s tools present).
Proof.
  induction tools as [|tl tools IH]; intros present; simpl; [constructor|].
  destruct (existsb _ present); [apply IH|].
  constructor; [|apply IH].
  intros Hin. apply fresh_identifiers_In in Hin. destruct Hin as [_ Hnot].
  apply Hnot. apply in_or_app. right. now left.
Qed.

Lemma fresh_identifiers_length s tools :
  forall present,
    List.length (fresh_identifiers s tools present) <= List.length tools.
Proof.
  induction tools as [|tl tools IH]; intros present; simpl; [lia|].
  destruct (existsb _ present); simpl.
  - specialize (IH present). lia.
  - specialize (IH (present ++ [ToolCache.prefixed s (name tl)])%list). lia.
Qed.

Lemma getToolNames_addFromServer s tools :
  forall c,
    ToolCache.getToolNames (ToolCache.addFromServer s tools c)
    = (ToolCache.getToolNames c
       ++ fresh_identifiers s tools (ToolCache.getToolNames c))%list.
Proof.
  unfold ToolCache.getToolNames, ToolCache.addFromServer.
  induction tools as [|tl tools IH]; intros c; simpl.
  - now rewrite app_nil_r.
  - rewrite IH, JSMapFacts.keys_set, <- has_existsb.
    destruct (JSMap.has (ToolCache.prefixed s (name tl)) c); [reflexivity|].
    now rewrite <- app_assoc.
Qed.

(** A registration keeps the identifiers already cached in their places and
    puts after them the identifiers it adds: those its tools compute that
    the cache did not hold, each once, in the order the tools first compute
    them.  The size grows by their number, which is at most the number of
    tools registered. *)
Theorem addFromServer_appends :
  forall (s : string) (tools : list ToolDefinition) (c : ToolCache.t),
    let fresh := fresh_identifiers s tools (ToolCache.getToolNames c) in
    ToolCache.getToolNames (ToolCache.addFromServer s tools c)
    = (ToolCache.getToolNames c ++ fresh)%list
    /\ ToolCache.size (ToolCache.addFromServer s tools c)
       = ToolCache.size c + List.length fresh
    /\ List.length fresh <= List.length tools
    /\ NoDup fresh
    /\ forall k,
         In k fresh <->
         (exists tl, In tl tools /\ s ++ "__" ++ name tl = k)
         /\ ~ In k (ToolCache.getToolNames c).
Proof.
  intros s tools c fresh. subst fresh.
  split; [apply getToolNames_addFromServer|].
  split.
  - unfold ToolCache.size. rewrite !JSMapFacts.size_keys.
    fold (ToolCache.getToolNames (ToolCache.addFromServer s tools c)).
    fold (ToolCache.getToolNames c).
    rewrite getToolNames_addFromServer. apply length_app.
  - split; [apply fresh_identifiers_length|].
    split; [apply fresh_identifiers_NoDup|].
    intros k. apply fresh_identifiers_In.
Qed.

(** Registering the same tools of a backend a second time changes nothing. *)
Theorem addFromServer_idempotent :
  forall (s : string) (tools : list ToolDefinition) (c : ToolCache.t),
    ToolCache.reachable c ->
    ToolCache.addFromServer s tools (ToolCache.addFromServer s tools c)
    = ToolCache.addFromServer s tools c.
Proof.
  intros s tools c Hreach.
  set (c1 := ToolCache.addFromServer s tools c).
  assert (Hok : ToolCache.cache_ok c1).
  { apply ToolCacheFacts.cache_ok_addFromServer.
    now apply ToolCacheFacts.reachable_cache_ok. }
  assert (Hkeys : ToolCache.getToolNames (ToolCache.addFromServer s tools c1)
                  = ToolCache.getToolNames c1).
  { apply ToolCacheMore.keys_addFromServer_present. intros tl Hin.
    destruct (find_last_named s tools tl Hin) as (tl' & F & _ & _).
    pose proof (ToolCacheFacts.get_addFromServer s tools c
                  (ToolCache.prefixed s (name tl))) as G.
    rewrite F in G. unfold JSMap.has. unfold ToolCache.get in G.
    subst c1. now rewrite G. }
  apply ToolCacheMore.jsmap_ext.
  - exact Hkeys.
  - intros k.
    pose proof (ToolCacheFacts.get_addFromServer s tools c1 k) as G1.
    pose proof (ToolCacheFacts.get_addFromServer s tools c k) as G.
    unfold ToolCache.get in *. fold c1 in G. rewrite G1.
    destruct (find _ (rev tools)); [now rewrite G | reflexivity].
  - unfold ToolCache.getToolNames in Hkeys. rewrite Hkeys. apply Hok.
Qed.

Lemma addFromServer_idempotent_witness :
  ToolCache.addFromServer "a"
    [mkToolDefinition "x" "one" JNull None; mkToolDefinition "x" "two" JNull None]
    (ToolCache.addFromServer "a"
       [mkToolDefinition "x" "one" JNull None; mkToolDefinition "x" "two" JNull None]
       ToolCache.new)
  = ToolCache.addFromServer "a"
      [mkToolDefinition "x" "one" JNull None; mkToolDefinition "x" "two" JNull None]
      ToolCache.new.
Proof.
  apply (addFromServer_idempotent "a"
           [mkToolDefinition "x" "one" JNull None;
            mkToolDefinition "x" "two" JNull None] ToolCache.new).
  apply ToolCache.reach_new.
Defined.

(** ** More on extracting references *)

Module BedrockMore.

Lemma slice_incl {A} (start stop : Z) (l : list A) (x : A) :
  In x (slice start stop l) -> In x l.
Proof.
  unfold slice. intros H.
  set (k := relative_index start (List.length l)) in *.
  set (j := relative_index stop (List.length l) - k) in *.
  rewrite <- (firstn_skipn k l). apply in_or_app. right.
  rewrite <- (firstn_skipn j (skipn k l)). apply in_or_app. now left.
Qed.

Lemma extract_incl response maxResults (n : string) :
  In n (Bedrock.extractToolReferences response maxResults) ->
  In n (references_in_order response).
Proof.
  unfold Bedrock.extractToolReferences. intros H.
  apply slice_incl in H. now rewrite BedrockFacts.collect_in_order in H.
Qed.

Lemma slice_nil {A} (start stop : Z) : slice start stop (@nil A) = [].
Proof. unfold slice. rewrite skipn_nil. apply firstn_nil. Qed.

End BedrockMore.

(** Whatever the limit, [extractToolReferences] returns a leading segment
    of the names collected from the response, in the order collected: the
    first [m] for a limit [m] that is not negative (all when there are
    fewer), all but the last [-m] for a negative one, the first five when
    the limit is left out. *)
Theorem extractToolReferences_leading_segment :
  forall (response : BedrockResponse) (maxResults : option Z),
    Bedrock.extractToolReferences response maxResults
    = firstn
        (match maxResults with
         | None => 5
         | Some z =>
             if (z <? 0)%Z
             then List.length (Bedrock.collect response) - Z.to_nat (- z)
             else Z.to_nat z
         end)
        (Bedrock.collect response).
Proof.
  intros response maxResults. unfold Bedrock.extractToolReferences.
  set (l := Bedrock.collect response).
  assert (Hnonneg : forall z, (0 <= z)%Z ->
            slice 0 z l = firstn (Z.to_nat z) l)
    by (intros z Hz; now apply BedrockFacts.slice_prefix).
  destruct maxResults as [z|]; [|now apply (Hnonneg 5%Z)].
  destruct (z <? 0)%Z eqn:E.
  - apply Z.ltb_lt in E. unfold slice.
    rewrite (BedrockFacts.relative_index_nonneg 0) by lia.
    simpl. rewrite Nat.sub_0_r. f_equal.
    unfold relative_index. apply Z.ltb_lt in E. rewrite E. lia.
  - apply Z.ltb_ge in E. now apply Hnonneg.
Qed.

(** Every name returned is a non-empty [tool_name] of a reference listed in
    a block of type [tool_search_tool_result] of the response: blocks of
    other types, and references without a name, contribute nothing. *)
Theorem extractToolReferences_origin :
  forall (response : BedrockResponse) (maxResults : option Z) (n : string),
    In n (Bedrock.extractToolReferences response maxResults) ->
    n <> ""
    /\ exists block searchResult refs ref,
         In block (r_content response)
         /\ b_type block = "tool_search_tool_result"
         /\ b_content block = Some searchResult
         /\ tool_references searchResult = Some refs
         /\ In ref refs
         /\ ref_tool_name ref = Some n.
Proof.
  intros response maxResults n Hin.
  pose proof (BedrockMore.extract_incl response maxResults n Hin) as Hall.
  unfold references_in_order in Hall. apply in_flat_map in Hall.
  destruct Hall as (block & Hblock & Hn).
  destruct (String.eqb_spec (b_type block) "tool_search_tool_result")
    as [Htype|]; [|contradiction].
  destruct (b_content block) as [searchResult|] eqn:Hc; [|contradiction].
  destruct (tool_references searchResult) as [refs|] eqn:Hr; [|contradiction].
  unfold reference_names in Hn. apply in_flat_map in Hn.
  destruct Hn as (ref & Href & Hn).
  destruct (ref_tool_name ref) as [n'|] eqn:Hname; [|contradiction].
  destruct (String.eqb_spec n' "") as [|Hne]; [contradiction|].
  destruct Hn as [<-|[]].
  split; [exact Hne|].
  exists block, searchResult, refs, ref. repeat split; assumption.
Qed.

Lemma extractToolReferences_origin_witness :
  "a__y" <> ""
  /\ exists block searchResult refs ref,
       In block (r_content five_references)
       /\ b_type block = "tool_search_tool_result"
       /\ b_content block = Some searchResult
       /\ tool_references searchResult = Some refs
       /\ In ref refs
       /\ ref_tool_name ref = Some "a__y".
Proof.
  apply (extractToolReferences_origin five_references (Some 2%Z) "a__y").
  vm_compute. right. left. reflexivity.
Defined.

(** A response without a block of type [tool_search_tool_result] yields the
    empty list, whatever the limit. *)
Theorem extractToolReferences_no_search_result :
  forall (response : BedrockResponse) (maxResults : option Z),
    (forall block, In block (r_content response) ->
                   b_type block <> "tool_search_tool_result") ->
    Bedrock.extractToolReferences response maxResults = [].
Proof.
  intros response maxResults Hnone.
  unfold Bedrock.extractToolReferences.
  rewrite BedrockFacts.collect_in_order. unfold references_in_order.
  assert (Hempty : flat_map
            (fun block =>
               if String.eqb (b_type block) "tool_search_tool_result"
               then match b_content block with
                    | Some sc => match tool_references sc with
                                 | Some refs => reference_names refs
                                 | None => []
                                 end
                    | None => []
                    end
               else [])
            (r_content response) = []).
  { induction (r_content response) as [|block blocks IH]; [reflexivity|].
    simpl. rewrite IH by (intros b Hb; apply Hnone; now right).
    assert (Hb : b_type block <> "tool_search_tool_result")
      by (apply Hnone; now left).
    apply String.eqb_neq in Hb. now rewrite Hb. }
  rewrite Hempty. apply BedrockMore.slice_nil.
Qed.

Lemma extractToolReferences_no_search_result_witness :
  Bedrock.extractToolReferences
    (mkResponse "msg_02" [mkBlock "text" (Some "No tool fits.") None] "end_turn")
    (Some 3%Z)
  = [].
Proof.
  apply (extractToolReferences_no_search_result
           (mkResponse "msg_02" [mkBlock "text" (Some "No tool fits.") None]
              "end_turn") (Some 3%Z)).
  intros block [<-|[]]. discriminate.
Defined.

(** The names of several search-result blocks are accumulated block after
    block: collecting from a content that is two contents one after the
    other gives the names of the first followed by those of the second. *)
Theorem collect_accumulates :
  forall (id stop : string) (content1 content2 : list ResponseBlock),
    Bedrock.collect (mkResponse id (content1 ++ content2) stop)
    = (Bedrock.collect (mkResponse id content1 stop)
       ++ Bedrock.collect (mkResponse id content2 stop))%list.
Proof.
  intros id stop content1 content2.
  rewrite !BedrockFacts.collect_in_order. unfold references_in_order. simpl.
  apply flat_map_app.
Qed.

(** ** More on the backend pool *)

Module PoolMore.
Section Pool.
Variable w : World.

(** What one call of [connectServer] does, case by case. *)
Lemma connectServer_result s config m :
  BackendPool.connectServer w s config m =
  match connect w (BackendPool.selectTransport config) with
  | Throw msg =>
      (Throw msg,
       {| toolCache := toolCache m; clients := clients m;
          trace := trace m
                   ++ [EvConnect s (BackendPool.selectTransport config)] |})
  | Ret cl =>
      match listTools cl with
      | Throw msg =>
          (Throw msg,
           {| toolCache := toolCache m; clients := clients m;
              trace := (trace m
                        ++ [EvConnect s (BackendPool.selectTransport config)])
                       ++ [EvListTools s] |})
      | Ret served =>
          (Ret tt,
           {| toolCache :=
                ToolCache.addFromServer s
                  (List.map BackendPool.toToolDefinition served) (toolCache m);
              clients :=
                JSMap.set s {| client := cl; config := config |} (clients m);
              trace := (trace m
                        ++ [EvConnect s (BackendPool.selectTransport config)])
                       ++ [EvListTools s] |})
      end
  end.
Proof.
  unfold BackendPool.connectServer, bind, emit, lift, update_cache,
    update_clients. simpl.
  destruct (connect w (BackendPool.selectTransport config)) as [cl|msg];
    [|reflexivity].
  simpl. destruct (listTools cl); reflexivity.
Qed.

Lemma connections_cons s config backends cs :
  connections w ((s, config) :: backends) cs
  = connections w backends
      (match connected_tools w config with
       | Some (cl, _) =>
           JSMap.set s {| client := cl; config := config |} cs
       | None => cs
       end).
Proof. reflexivity. Qed.

Lemma loop_clients backends m :
  exists m',
    for_of backends
      (fun '(serverName, serverConfig) =>
         try_catch (BackendPool.connectServer w serverName serverConfig)
                   (fun _ => ret tt)) m
    = (Ret tt, m')
    /\ clients m' = connections w backends (clients m).
Proof.
  revert m. induction backends as [|[s config] backends IH]; intros m.
  - exists m. split; reflexivity.
  - simpl for_of. unfold bind at 1. unfold try_catch at 1.
    rewrite connectServer_result, connections_cons.
    unfold connected_tools.
    destruct (connect w (BackendPool.selectTransport config)) as [cl|msg];
      [destruct (listTools cl) as [served|msg]|]; unfold ret;
      match goal with
      | |- exists m', for_of _ _ ?m1 = _ /\ _ =>
          destruct (IH m1) as (m' & E & C); exists m'; split; [exact E|];
          rewrite C; reflexivity
      end.
Qed.

(** [initialize] with the declared backends read. *)
Lemma initialize_result configPath backends m :
  readConfig w configPath = Ret backends ->
  exists m',
    BackendPool.initialize w configPath m = (Ret tt, m')
    /\ toolCache m' = register_each (registrations w backends) (toolCache m)
    /\ clients m' = connections w backends (clients m)
    /\ (forall s, In s (JSMap.keys (clients m)) ->
                  In s (JSMap.keys (clients m')))
    /\ (forall s config, In (s, config) backends ->
          connected_tools w config <> None ->
          In s (JSMap.keys (clients m'))).
Proof.
  intros Hread.
  unfold BackendPool.initialize, bind, emit, lift. rewrite Hread.
  set (m0 := {| toolCache := toolCache m; clients := clients m;
                trace := trace m ++ [EvReadConfig configPath] |}).
  destruct (InitializeFacts.initialize_loop w backends m0)
    as (m1 & E & C & _ & K & S).
  destruct (loop_clients backends m0) as (m2 & E2 & C2).
  rewrite E in E2. injection E2 as <-.
  exists m1. rewrite E. auto.
Qed.

Lemma connections_other backends cs s :
  ~ In s (List.map fst backends) ->
  JSMap.get s (connections w backends cs) = JSMap.get s cs.
Proof.
  revert cs. induction backends as [|[s' config] backends IH]; intros cs Hnot;
    [reflexivity|].
  simpl in Hnot. rewrite connections_cons.
  rewrite IH by tauto.
  destruct (connected_tools w config) as [[cl served]|]; [|reflexivity].
  apply JSMapFacts.get_set_other. tauto.
Qed.

Lemma connections_keys backends cs :
  NoDup (List.map fst backends) ->
  (forall s, In s (List.map fst backends) -> ~ In s (JSMap.keys cs)) ->
  JSMap.keys (connections w backends cs)
  = (JSMap.keys cs
     ++ List.map fst (filter (fun b => connects w (snd b)) backends))%list.
Proof.
  revert cs. induction backends as [|[s config] backends IH]; intros cs Hnd Hfresh.
  - simpl. now rewrite app_nil_r.
  - simpl in Hnd. inversion Hnd as [|? ? Hnotin Hnd']; subst.
    rewrite connections_cons.
    simpl filter. unfold connects at 1.
    destruct (connected_tools w config) as [[cl served]|].
    + rewrite IH; [|assumption|].
      * rewrite JSMapFacts.keys_set.
        assert (Hhas : JSMap.has s cs = false).
        { unfold JSMap.has. destruct (JSMap.get s cs) eqn:G; [|reflexivity].
          exfalso. apply (Hfresh s); [now left|].
          apply JSMapFacts.get_In_keys. congruence. }
        rewrite Hhas. simpl. now rewrite <- app_assoc.
      * intros s' Hs' Hin. apply JSMapFacts.In_keys_set in Hin.
        destruct Hin as [->|Hin]; [contradiction|].
        apply (Hfresh s'); [now right | assumption].
    + apply IH; [assumption|].
      intros s' Hs'. apply Hfresh. now right.
Qed.

Lemma cache_ok_register_each regs c :
  ToolCache.cache_ok c -> ToolCache.cache_ok (register_each regs c).
Proof.
  revert c. unfold register_each.
  induction regs as [|[s tl] regs IH]; intros c Hc; [assumption|].
  simpl. apply IH. now apply ToolCacheFacts.cache_ok_set.
Qed.

End Pool.
End PoolMore.

(** [connectServer] registers all or nothing: when it throws, because the
    connection fails or because listing the tools fails, the cache and the
    connections are as before; when it returns, the tools the backend lists
    are registered under its name and its connection is retained. *)
Theorem connectServer_all_or_nothing :
  forall (w : World) (s : string) (config : BackendServerConfig) (m : Machine),
    match BackendPool.connectServer w s config m with
    | (Throw _, m') =>
        toolCache m' = toolCache m /\ clients m' = clients m
        /\ connected_tools w config = None
    | (Ret _, m') =>
        exists cl served,
          connected_tools w config = Some (cl, served)
          /\ toolCache m'
             = ToolCache.addFromServer s
                 (List.map BackendPool.toToolDefinition served) (toolCache m)
          /\ JSMap.get s (clients m')
             = Some {| client := cl; config := config |}
          /\ forall s', s' <> s ->
                        JSMap.get s' (clients m') = JSMap.get s' (clients m)
    end.
Proof.
  intros w s config m. rewrite PoolMore.connectServer_result.
  unfold connected_tools.
  destruct (connect w (BackendPool.selectTransport config)) as [cl|msg];
    [destruct (listTools cl) as [served|msg]|]; simpl; auto.
  exists cl, served. repeat split.
  - apply JSMapFacts.get_set_same.
  - intros s' Hne. apply JSMapFacts.get_set_other. congruence.
Qed.

(** [close] makes one close attempt per live connection, in order, whether
    or not they succeed, and leaves no connection; a second [close] finds
    nothing to do and changes nothing. *)
Theorem close_is_idempotent :
  forall m : Machine,
    let m1 := snd (BackendPool.close m) in
    trace m1
    = (trace m ++ List.map EvClose (BackendPool.getConnectedServers m))%list
    /\ BackendPool.getConnectedServers m1 = []
    /\ BackendPool.close m1 = (Ret tt, m1).
Proof.
  intros m m1. subst m1. rewrite BackendPoolFacts.close_spec. simpl snd.
  split.
  - simpl. unfold BackendPool.getConnectedServers, JSMap.keys.
    now rewrite map_map.
  - split; [reflexivity|].
    rewrite BackendPoolFacts.close_spec. simpl. now rewrite app_nil_r.
Qed.

Lemma connections_get (w : World) backends cs s config cl served :
  NoDup (List.map fst backends) ->
  In (s, config) backends ->
  connected_tools w config = Some (cl, served) ->
  JSMap.get s (connections w backends cs)
  = Some {| client := cl; config := config |}.
Proof.
  revert cs. induction backends as [|[s' config'] backends IH];
    intros cs Hnd Hin Hc; [contradiction|].
  simpl in Hnd. inversion Hnd as [|? ? Hnotin Hnd']; subst.
  rewrite PoolMore.connections_cons.
  destruct Hin as [[= -> ->]|Hin]; [|now apply IH].
  rewrite PoolMore.connections_other by assumption.
  rewrite Hc. apply JSMapFacts.get_set_same.
Qed.

(** Started from the initial state on declared backends with distinct
    names, [initialize] leaves [getConnectedServers] listing exactly the
    backends that connected and listed their tools, in declaration order,
    each with the connection made for it. *)
Theorem connected_servers_after_initialize :
  forall (w : World) (configPath : string)
         (backends : list (string * BackendServerConfig)),
    readConfig w configPath = Ret backends ->
    NoDup (List.map fst backends) ->
    let m' := snd (BackendPool.initialize w configPath initial) in
    BackendPool.getConnectedServers m'
    = List.map fst (filter (fun b => connects w (snd b)) backends)
    /\ forall s config cl served,
         In (s, config) backends ->
         connected_tools w config = Some (cl, served) ->
         JSMap.get s (clients m')
         = Some {| client := cl; config := config |}.
Proof.
  intros w configPath backends Hread Hnd m'.
  destruct (PoolMore.initialize_result w configPath backends initial Hread)
    as (m1 & E & _ & C & _). subst m'. rewrite E. simpl snd.
  unfold BackendPool.getConnectedServers. rewrite C. split.
  - rewrite PoolMore.connections_keys; [reflexivity | assumption |].
    intros s _ [].
  - intros s config cl served Hin Hc.
    now apply (connections_get w backends _ s config cl served).
Qed.

Lemma connected_servers_after_initialize_witness :
  BackendPool.getConnectedServers
    (snd (BackendPool.initialize sample_world "./proxy-config.json" initial))
  = ["a"; "b"].
Proof.
  destruct (connected_servers_after_initialize sample_world
              "./proxy-config.json"
              [("a", config_a); ("down", config_down); ("b", config_b)])
    as [Hnames _].
  - reflexivity.
  - simpl. repeat constructor; simpl; intuition discriminate.
  - rewrite Hnames. reflexivity.
Defined.

(** [runServer] never throws.  When the configuration cannot be read it
    leaves the cache and the connections as they were and attempts no
    connection; otherwise the cache holds the tools of the backends that
    connected and the pool their connections. *)
Theorem runServer_never_throws :
  forall (w : World) (configPath : string) (m : Machine),
    let m' := snd (Proxy.runServer w configPath m) in
    fst (Proxy.runServer w configPath m) = Ret tt
    /\ match readConfig w configPath with
       | Throw _ =>
           toolCache m' = toolCache m /\ clients m' = clients m
           /\ connect_attempts (trace m') = connect_attempts (trace m)
       | Ret backends =>
           toolCache m'
           = register_each (registrations w backends) (toolCache m)
           /\ clients m' = connections w backends (clients m)
       end.
Proof.
  intros w configPath m m'. subst m'. unfold Proxy.runServer, try_catch.
  destruct (readConfig w configPath) as [backends|msg] eqn:Hread.
  - destruct (PoolMore.initialize_result w configPath backends m Hread)
      as (m1 & E & C & K & _). rewrite E. simpl. auto.
  - unfold BackendPool.initialize, bind, emit, lift. rewrite Hread. simpl.
    repeat split. unfold connect_attempts. rewrite flat_map_app. simpl.
    now rewrite app_nil_r.
Qed.



(** ** More on the request handler *)

Module HandlerMore.

Lemma try_catch_returns {A} (c : M A) (f : string -> A) (m : Machine) :
  exists a m', try_catch c (fun msg => ret (f msg)) m = (Ret a, m').
Proof.
  unfold try_catch, ret. destruct (c m) as [[a|msg] m'];
    eexists; eexists; reflexivity.
Qed.



End HandlerMore.


(** The request handler never throws: whatever the request, the state and
    the answers of the outside, it returns a result. *)
Theorem handler_never_throws :
  forall (w : World) (params : Params) (m : Machine),
    exists r m', Proxy.handler w params m = (Ret r, m').
Proof.
  intros w params m. unfold Proxy.handler.
  destruct (String.eqb (p_name params) "search_tools").
  - unfold Proxy.search_tools. apply HandlerMore.try_catch_returns.
  - destruct (String.eqb (p_name params) "call_tool").
    + unfold Proxy.call_tool. apply HandlerMore.try_catch_returns.
    + unfold ret. eexists; eexists; reflexivity.
Qed.

(** A request changes neither the cache nor the connections, and makes at
    most one call to the outside: one search request or one backend call. *)
Theorem handler_leaves_cache_and_connections :
  forall (w : World) (params : Params) (m : Machine),
    let m' := snd (Proxy.handler w params m) in
    toolCache m' = toolCache m
    /\ clients m' = clients m
    /\ exists events,
         trace m' = (trace m ++ events)%list
         /\ List.length events <= 1
         /\ List.length (search_requests events)
            + List.length (backend_calls events) = List.length events.
Proof.
  intros w params m m'. subst m'.
  unfold Proxy.handler, Proxy.search_tools, Proxy.call_tool,
    Bedrock.invokeWithToolSearch, BackendPool.callTool,
    try_catch, bind, gets, ret, throw, emit, lift.
  repeat match goal with
         | |- context [match ?x with _ => _ end] =>
             lazymatch x with
             | context [match _ with _ => _ end] => fail
             | _ => destruct x; simpl
             end
         end;
    (split; [reflexivity|]); (split; [reflexivity|]);
    first [ exists []; rewrite app_nil_r; simpl; split; [reflexivity|]; split; [lia | reflexivity]
          | eexists [_]; simpl; split; [reflexivity|]; split; [lia | reflexivity] ].
Qed.

(** A discovery without a query is answered with an error result and the
    state is as before, so the search service is not called, whatever the
    cache holds: with an arguments object whose query is absent or empty the
    text names the parameter; with no arguments object at all it is the
    search-error text carrying the error of reading the query off
    [undefined]. *)
Theorem discover_requires_query :
  forall (w : World) (m : Machine) (args : option RequestArguments),
    match args with
    | Some a => query a = None \/ query a = Some ""
    | None => True
    end ->
    exists r,
      Proxy.handler w {| p_name := "search_tools"; p_arguments := args |} m
      = (Ret r, m)
      /\ isError r = Some true
      /\ match args with
         | Some _ => text r = Lit "Error: query parameter is required"
         | None => exists msg, text r = Lit ("Error searching tools: " ++ msg)
         end.
Proof.
  intros w m args Hq. unfold Proxy.handler. simpl.
  unfold Proxy.search_tools, try_catch.
  destruct args as [a|].
  - destruct Hq as [Hq|Hq]; rewrite Hq; eexists; repeat split.
  - eexists. split; [reflexivity|]. split; [reflexivity|].
    eexists. reflexivity.
Qed.

Lemma discover_requires_query_witness :
  (exists r,
     Proxy.handler sample_world
       {| p_name := "search_tools";
          p_arguments := Some (mkArgs (Some "") (Some 3%Z) None None) |}
       sample_running
     = (Ret r, sample_running)
     /\ isError r = Some true
     /\ text r = Lit "Error: query parameter is required")
  /\ (exists r,
        Proxy.handler sample_world
          {| p_name := "search_tools"; p_arguments := None |} sample_running
        = (Ret r, sample_running)
        /\ isError r = Some true
        /\ exists msg, text r = Lit ("Error searching tools: " ++ msg)).
Proof.
  split.
  - apply (discover_requires_query sample_world sample_running
             (Some (mkArgs (Some "") (Some 3%Z) None None))).
    right. reflexivity.
  - apply (discover_requires_query sample_world sample_running None).
    exact I.
Defined.

(** An invocation without a tool name is answered with an error result
    and the state is as before, so the cache is not consulted and no backend
    is called: with an arguments object whose tool name is absent or empty
    the text names the parameter; with no arguments object at all it is the
    call-error text carrying the error of reading the tool name off
    [undefined]. *)
Theorem invoke_requires_tool_name :
  forall (w : World) (m : Machine) (args : option RequestArguments),
    match args with
    | Some a => tool_name a = None \/ tool_name a = Some ""
    | None => True
    end ->
    exists r,
      Proxy.handler w {| p_name := "call_tool"; p_arguments := args |} m
      = (Ret r, m)
      /\ isError r = Some true
      /\ match args with
         | Some _ => text r = Lit "Error: tool_name parameter is required"
         | None => exists msg, text r = Lit ("Error calling tool: " ++ msg)
         end.
Proof.
  intros w m args Hn. unfold Proxy.handler. simpl.
  unfold Proxy.call_tool, try_catch.
  destruct args as [a|].
  - destruct Hn as [Hn|Hn]; rewrite Hn; eexists; repeat split.
  - eexists. split; [reflexivity|]. split; [reflexivity|].
    eexists. reflexivity.
Qed.

Lemma invoke_requires_tool_name_witness :
  (exists r,
     Proxy.handler sample_world
       {| p_name := "call_tool";
          p_arguments := Some (mkArgs None None None (Some (JObj []))) |}
       sample_running
     = (Ret r, sample_running)
     /\ isError r = Some true
     /\ text r = Lit "Error: tool_name parameter is required")
  /\ (exists r,
        Proxy.handler sample_world
          {| p_name := "call_tool"; p_arguments := None |} sample_running
        = (Ret r, sample_running)
        /\ isError r = Some true
        /\ exists msg, text r = Lit ("Error calling tool: " ++ msg)).
Proof.
  split.
  - apply (invoke_requires_tool_name sample_world sample_running
             (Some (mkArgs None None None (Some (JObj []))))).
    left. reflexivity.
  - apply (invoke_requires_tool_name sample_world sample_running None).
    exact I.
Defined.

(** When the call to the search service fails, the discovery is answered
    with an error result carrying the message of the failure; the one
    request made is the one built from the cached definitions. *)
Theorem discover_reports_search_failure :
  forall (w : World) (m : Machine) (a : RequestArguments) (q msg : string),
    query a = Some q -> q <> "" ->
    ToolCache.size (toolCache m) <> 0 ->
    send w (discovery_request m q) = Throw msg ->
    Proxy.handler w {| p_name := "search_tools"; p_arguments := Some a |} m
    = (Ret {| text := Lit ("Error searching tools: " ++ msg);
              isError := Some true |},
       {| toolCache := toolCache m;
          clients := clients m;
          trace := trace m ++ [EvInvokeModel (discovery_request m q)] |}).
Proof.
  intros w m a q msg Hq Hne Hsize Hsend.
  unfold Proxy.handler. simpl.
  unfold Proxy.search_tools, try_catch, bind, gets.
  rewrite Hq, (ProxyFacts.truthy_string_Some q Hne). cbn [negb]. cbv beta iota.
  assert (E : Nat.eqb (List.length (ToolCache.getAllDefinitions (toolCache m))) 0
              = false).
  { apply Nat.eqb_neq. rewrite ProxyFacts.getAllDefinitions_length.
    exact Hsize. }
  rewrite E.
  unfold Bedrock.invokeWithToolSearch, bind, emit, lift, ret.
  unfold discovery_request in Hsend. simpl trace. simpl toolCache.
  rewrite Hsend. reflexivity.
Qed.

Lemma discover_reports_search_failure_witness :
  fst (Proxy.handler
         (mkWorld (readConfig sample_world) (connect sample_world)
                  (fun _ => Throw "ThrottlingException"))
         {| p_name := "search_tools";
            p_arguments := Some (mkArgs (Some "x") None None None) |}
         sample_running)
  = Ret {| text := Lit "Error searching tools: ThrottlingException";
           isError := Some true |}.
Proof.
  rewrite (discover_reports_search_failure
             (mkWorld (readConfig sample_world) (connect sample_world)
                      (fun _ => Throw "ThrottlingException"))
             sample_running (mkArgs (Some "x") None None None) "x"
             "ThrottlingException").
  - reflexivity.
  - reflexivity.
  - discriminate.
  - vm_compute. discriminate.
  - reflexivity.
Defined.


